(** * Automated sales reporting pipeline: a shallow embedding

    The development follows the Python sources of the repository:
    [pipeline/transform.py] (cleaning, typing, derivation, null handling,
    validation), [pipeline/load.py] (star-schema population and load
    reconciliation) and [pipeline/main.py] (phase ordering).

    A pandas [DataFrame] is a list of rows, every row a finite map from column
    names to cells, together with the ordered column list and the dtype of
    every column.  Finite binary64 values are idealised as exact rationals kept
    in lowest terms.  The SQLite target is a record of six tables; logging is a
    list of records that is threaded through every function. *)

From Stdlib Require Import ZArith QArith Qround Lia List Ascii String Sorted Permutation.
From stdpp Require Import base decidable option list strings gmap.

Local Open Scope Z_scope.

(** ** Cells, timestamps and dtypes *)

(** A [pd.Timestamp] produced with format [%Y-%m-%d]: midnight of a civil
    date. *)
Record Timestamp := mkTimestamp { year : Z; month : Z; day : Z }.

#[global] Instance Timestamp_eq_dec : EqDecision Timestamp.
Proof. solve_decision. Defined.

#[global] Instance Q_eq_dec : EqDecision Q.
Proof. solve_decision. Defined.

(** One value of a column.  [NA] stands for every pandas missing marker
    ([NaN], [NaT], [pd.NA], [None]). *)
Inductive Cell :=
| NA
| Str (s : string)
| Num (x : Q)
| Stamp (t : Timestamp).

#[global] Instance Cell_eq_dec : EqDecision Cell.
Proof. solve_decision. Defined.

#[global] Instance Cell_inhabited : Inhabited Cell := populate NA.

Inductive DType := object | float64 | int64 | Int64 | int32 | datetime64.

#[global] Instance DType_eq_dec : EqDecision DType.
Proof. solve_decision. Defined.

#[global] Instance DType_inhabited : Inhabited DType := populate object.

Record Series := mkSeries { dtype : DType; values : list Cell }.

Definition isnull (c : Cell) : bool :=
  match c with NA => true | _ => false end.

Definition notnull (c : Cell) : bool := negb (isnull c).

(** [s.isnull().sum()] *)
Definition null_count (l : list Cell) : nat := length (filter (λ c, isnull c = true) l).

(** ** Calendar arithmetic *)

Module Calendar.

Definition is_leap (y : Z) : bool :=
  ((y mod 4 =? 0) && negb (y mod 100 =? 0)) || (y mod 400 =? 0).

Definition days_in_month (y m : Z) : Z :=
  if m =? 2 then (if is_leap y then 29 else 28)
  else if (m =? 4) || (m =? 6) || (m =? 9) || (m =? 11) then 30
  else 31.

(** The dates a [datetime64[ns]] column can hold. *)
Definition valid (t : Timestamp) : Prop :=
  1678 <= year t <= 2261 /\ 1 <= month t <= 12 /\
  1 <= day t <= days_in_month (year t) (month t).

Definition validb (t : Timestamp) : bool :=
  (1678 <=? year t) && (year t <=? 2261) && (1 <=? month t) && (month t <=? 12)
  && (1 <=? day t) && (day t <=? days_in_month (year t) (month t)).

(** Days since 1970-01-01 of a civil date. *)
Definition days_from_civil (t : Timestamp) : Z :=
  let y := if month t <=? 2 then year t - 1 else year t in
  let era := y / 400 in
  let yoe := y - era * 400 in
  let mp := (month t + 9) mod 12 in
  let doy := (153 * mp + 2) / 5 + day t - 1 in
  let doe := yoe * 365 + yoe / 4 - yoe / 100 + doy in
  era * 146097 + doe - 719468.

(** [Timestamp.dayofweek]: Monday is 0, Sunday is 6. *)
Definition dayofweek (t : Timestamp) : Z := (days_from_civil t + 3) mod 7.

Definition quarter (t : Timestamp) : Z := (month t - 1) / 3 + 1.

Definition ordinal (t : Timestamp) : Z :=
  days_from_civil t - days_from_civil (mkTimestamp (year t) 1 1) + 1.

Definition weeks_in_year (y : Z) : Z :=
  let p := λ y, (y + y / 4 - y / 100 + y / 400) mod 7 in
  if (p y =? 4) || (p (y - 1) =? 3) then 53 else 52.

(** [Timestamp.isocalendar()[1]] *)
Definition isoweek (t : Timestamp) : Z :=
  let w := (ordinal t - (dayofweek t + 1) + 10) / 7 in
  if w <? 1 then weeks_in_year (year t - 1)
  else if weeks_in_year (year t) <? w then 1
  else w.

Definition month_names : list string :=
  ["January"; "February"; "March"; "April"; "May"; "June"; "July";
   "August"; "September"; "October"; "November"; "December"]%string.

Definition day_names : list string :=
  ["Monday"; "Tuesday"; "Wednesday"; "Thursday"; "Friday"; "Saturday";
   "Sunday"]%string.

(** [strftime('%B')] and [strftime('%A')] *)
Definition month_name (t : Timestamp) : string :=
  nth (Z.to_nat (month t - 1)) month_names ""%string.

Definition day_name (t : Timestamp) : string :=
  nth (Z.to_nat (dayofweek t)) day_names ""%string.

(** Decimal digits, as [strftime] and [int] use them. *)
Definition digit (n : Z) : ascii := ascii_of_nat (48 + Z.to_nat (n mod 10)).

Definition digit_value (a : ascii) : Z := Z.of_nat (nat_of_ascii a) - 48.

Definition pad2 (n : Z) : string :=
  String (digit (n / 10)) (String (digit n) EmptyString).

Definition pad4 (n : Z) : string :=
  String (digit (n / 1000)) (String (digit (n / 100)) (pad2 n)).

(** [t.strftime('%Y%m%d')] *)
Definition strftime_Ymd (t : Timestamp) : string :=
  pad4 (year t) +:+ pad2 (month t) +:+ pad2 (day t).

(** [t.strftime('%Y-%m-%d')] *)
Definition strftime_iso (t : Timestamp) : string :=
  pad4 (year t) +:+ "-" +:+ pad2 (month t) +:+ "-" +:+ pad2 (day t).

(** [int(s)] on a string of decimal digits. *)
Fixpoint int_acc (acc : Z) (s : string) : Z :=
  match s with
  | EmptyString => acc
  | String a s' => int_acc (acc * 10 + digit_value a) s'
  end.

Definition int (s : string) : Z := int_acc 0 s.

(** [int(date.strftime('%Y%m%d'))] *)
Definition date_key (t : Timestamp) : Z := int (strftime_Ymd t).

(** Order of timestamps, as [sorted] compares them. *)
Definition ltb (a b : Timestamp) : bool :=
  (year a <? year b)
  || ((year a =? year b)
      && ((month a <? month b) || ((month a =? month b) && (day a <? day b)))).

Definition leb (a b : Timestamp) : bool := negb (ltb b a).

End Calendar.


(** ** Exceptions, log records and the effect monad *)

Inductive Arg :=
| ANat (n : nat)
| AInt (z : Z)
| AText (s : string)
| ATexts (l : list string)
| ADType (d : DType).

(** A formatted message: the f-string with its holes, and the values that
    fill them, in order. *)
Record Message := mkMessage { template : string; args : list Arg }.

Inductive Level := INFO | WARNING | ERROR.

Record LogRecord := mkLogRecord { level : Level; message : Message }.

Inductive Exception :=
| KeyError (column : string)
| TypeError (what : string)
| AttributeError (what : string)
| ValueError (what : string) (details : list Message)
| IntegrityError (table : string).

Inductive Exc (A : Type) :=
| Ok (a : A)
| Raise (e : Exception).

Arguments Ok {A} a.
Arguments Raise {A} e.

(** A computation over a store [S] (nothing for the transform phase, the
    database for the load phase) that may raise, and that emits log records
    whether it raises or not. *)
Definition M (S A : Type) : Type := S → Exc A * S * list LogRecord.

Definition ret {S A} (a : A) : M S A := λ s, (Ok a, s, []).

Definition raise {S A} (e : Exception) : M S A := λ s, (Raise e, s, []).

Definition bind {S A B} (m : M S A) (k : A → M S B) : M S B :=
  λ s,
    match m s with
    | (Ok a, s', l) => let '(r, s'', l') := k a s' in (r, s'', l ++ l')
    | (Raise e, s', l) => (Raise e, s', l)
    end.

Definition log {S} (lvl : Level) (tmpl : string) (xs : list Arg) : M S () :=
  λ s, (Ok (), s, [mkLogRecord lvl (mkMessage tmpl xs)]).

Definition get {S} : M S S := λ s, (Ok s, s, []).

Definition put {S} (s : S) : M S () := λ _, (Ok (), s, []).

(** Runs a store-free computation inside one that owns a store. *)
Definition lift {S A} (m : M () A) : M S A :=
  λ s, let '(r, _, l) := m () in (r, s, l).

Notation "'let*' x ':=' m 'in' k" := (bind m (λ x, k))
  (at level 10, x name, k at level 200).
Notation "'let*' ' p ':=' m 'in' k" := (bind m (λ p, k))
  (at level 10, p pattern, k at level 200).

Definition result {S A} (o : Exc A * S * list LogRecord) : Exc A := o.1.1.
Definition store {S A} (o : Exc A * S * list LogRecord) : S := o.1.2.
Definition logged {S A} (o : Exc A * S * list LogRecord) : list LogRecord := o.2.

(** ** Data frames *)

Record DataFrame := mkDataFrame {
  columns : list string;
  dtypes : gmap string DType;
  rows : list (gmap string Cell)
}.

(** [len(df)] *)
Definition len (df : DataFrame) : nat := length (rows df).

Definition cell (r : gmap string Cell) (c : string) : Cell := r !!! c.

(** The series under a column label known to be present. *)
Definition column (df : DataFrame) (c : string) : Series :=
  mkSeries (dtypes df !!! c) (map (λ r, cell r c) (rows df)).

(** [df[c]] *)
Definition getitem {S} (df : DataFrame) (c : string) : M S Series :=
  if decide (c ∈ columns df) then ret (column df c) else raise (KeyError c).

(** [df[c] = s], for a series computed from [df] itself (same index). *)
Definition setitem (df : DataFrame) (c : string) (s : Series) : DataFrame :=
  mkDataFrame
    (if decide (c ∈ columns df) then columns df else columns df ++ [c])
    (<[c := dtype s]> (dtypes df))
    (zip_with (λ r v, <[c := v]> r) (rows df) (values s)).

(** The values of a row under the frame's columns, in column order. *)
Definition row_values (cols : list string) (r : gmap string Cell) : list Cell :=
  map (cell r) cols.

(** [drop_duplicates(subset=...)] keeps the first row of every group of rows
    that agree on [key]. *)
Fixpoint keep_first {A K} `{EqDecision K} (key : A → K) (seen : list K) (l : list A)
  : list A :=
  match l with
  | [] => []
  | x :: l' =>
      if decide (key x ∈ seen) then keep_first key seen l'
      else x :: keep_first key (key x :: seen) l'
  end.

Definition drop_duplicates (df : DataFrame) : DataFrame :=
  mkDataFrame (columns df) (dtypes df)
    (keep_first (row_values (columns df)) [] (rows df)).

(** ** The pandas operations the pipeline uses *)

(** What the sources leave to the installed pandas is a parameter of the
    development: [strptime_Ymd] is [pd.to_datetime] on one string with format
    ['%Y-%m-%d'], [parse_number] is [pd.to_numeric] on one string, and
    [round_refuses_object] tells whether [Series.round] raises a [TypeError]
    on an [object] series (pandas 1.x and 3.x) or returns it as it is
    (pandas 2.1 to 2.3). *)
Inductive Literal :=
| IntLit (x : Q)
| FloatLit (x : Q).

Definition literal_value (l : Literal) : Q :=
  match l with IntLit x | FloatLit x => x end.

Class Pandas := {
  strptime_Ymd : string → option Timestamp;
  parse_number : string → option Literal;
  round_refuses_object : bool;
  strptime_Ymd_valid : ∀ s t, strptime_Ymd s = Some t → Calendar.valid t
}.

Module pd.

Definition lower_char (a : ascii) : ascii :=
  let n := nat_of_ascii a in
  if (65 <=? n)%nat && (n <=? 90)%nat then ascii_of_nat (n + 32) else a.

Fixpoint str_map (f : ascii → ascii) (s : string) : string :=
  match s with
  | EmptyString => EmptyString
  | String a s' => String (f a) (str_map f s')
  end.

(** [.str.lower()] (on ASCII letters) and [.str.replace(old, new)] for
    one-character strings. *)
Definition str_lower : string → string := str_map lower_char.

Definition str_replace (old new : ascii) : string → string :=
  str_map (λ a, if decide (a = old) then new else a).

(** [df.columns = f(df.columns)] *)
Definition rename (f : string → string) (df : DataFrame) : DataFrame :=
  mkDataFrame
    (map f (columns df))
    (list_to_map (map (λ c, (f c, dtypes df !!! c)) (columns df)))
    (map (λ r, list_to_map (map (λ c, (f c, cell r c)) (columns df))) (rows df)).

(** [np.rint]: nearest integer, ties to even. *)
Definition rint (x : Q) : Z :=
  let f := Qfloor x in
  match ((x - inject_Z f) ?= (1 # 2))%Q with
  | Lt => f
  | Gt => f + 1
  | Eq => if Z.even f then f else f + 1
  end.

(** [np.round(x, 2)] *)
Definition round2 (x : Q) : Q :=
  Qred (inject_Z (rint (x * 100)) / 100).

Definition is_integral (x : Q) : bool := (Qden (Qred x) =? 1)%positive.

Section WithPandas.
Context `{Pandas}.

(** [pd.to_datetime(s, format='%Y-%m-%d', errors='coerce')] *)
Definition to_datetime_cell (c : Cell) : Cell :=
  match c with
  | Str s => match strptime_Ymd s with Some t => Stamp t | None => NA end
  | Stamp t => Stamp t
  | _ => NA
  end.

Definition to_datetime (s : Series) : Series :=
  mkSeries datetime64 (map to_datetime_cell (values s)).

(** [pd.to_numeric(s, errors='coerce')] *)
Definition to_numeric_cell (c : Cell) : Cell :=
  match c with
  | Num x => Num x
  | Str s => match parse_number s with
             | Some l => Num (Qred (literal_value l))
             | None => NA
             end
  | _ => NA
  end.

Definition converts_to_int (src : DType) (c : Cell) : bool :=
  match c with
  | Num _ => bool_decide (src ∈ [int64; Int64; int32])
  | Str s => match parse_number s with Some (IntLit _) => true | _ => false end
  | _ => false
  end.

Definition to_numeric (s : Series) : Series :=
  mkSeries
    (if forallb (converts_to_int (dtype s)) (values s) then int64 else float64)
    (map to_numeric_cell (values s)).

End WithPandas.

(** [s.astype('Int64')] on a numeric series: only integral values can be
    cast. *)
Definition castable_Int64 (c : Cell) : bool :=
  match c with
  | NA => true
  | Num x => is_integral x
  | _ => false
  end.

Definition astype_Int64 {S} (s : Series) : M S Series :=
  if forallb castable_Int64 (values s) then ret (mkSeries Int64 (values s))
  else raise (TypeError "cannot safely cast non-equivalent float64 to int64").

(** [s.replace(0, pd.NA)]: a numeric block cannot hold [pd.NA], so the
    series becomes [object] as soon as one value is replaced. *)
Definition is_zero (c : Cell) : bool :=
  match c with Num x => Qeq_bool x 0 | _ => false end.

Definition replace_zero_NA (s : Series) : Series :=
  if existsb is_zero (values s)
  then mkSeries object (map (λ c, if is_zero c then NA else c) (values s))
  else s.

(** [a / b], element by element; missing operands give a missing result. *)
Definition truediv_cell (a b : Cell) : option Cell :=
  match a, b with
  | Num x, Num y => Some (if Qeq_bool y 0 then NA else Num (Qred (x / y)))
  | NA, (NA | Num _) | Num _, NA => Some NA
  | _, _ => None
  end.

Fixpoint zip_cells (f : Cell → Cell → option Cell) (l1 l2 : list Cell)
  : option (list Cell) :=
  match l1, l2 with
  | a :: l1', b :: l2' =>
      match f a b, zip_cells f l1' l2' with
      | Some c, Some l => Some (c :: l)
      | _, _ => None
      end
  | _, _ => Some []
  end.

Definition joint_dtype (a b : Series) : DType :=
  if decide (dtype a = object ∨ dtype b = object) then object else float64.

Definition truediv {S} (a b : Series) : M S Series :=
  match zip_cells truediv_cell (values a) (values b) with
  | Some l => ret (mkSeries (joint_dtype a b) l)
  | None => raise (TypeError "unsupported operand type(s) for /")
  end.

(** [s * k] for a number [k] *)
Definition mul_cell (k : Q) (c : Cell) : option Cell :=
  match c with
  | Num x => Some (Num (Qred (x * k)))
  | NA => Some NA
  | _ => None
  end.

Fixpoint map_cells (f : Cell → option Cell) (l : list Cell) : option (list Cell) :=
  match l with
  | [] => Some []
  | c :: l' =>
      match f c, map_cells f l' with
      | Some c', Some r => Some (c' :: r)
      | _, _ => None
      end
  end.

Definition mul {S} (s : Series) (k : Q) : M S Series :=
  match map_cells (mul_cell k) (values s) with
  | Some l =>
      ret (mkSeries (if decide (dtype s = object) then object else float64) l)
  | None => raise (TypeError "unsupported operand type(s) for *")
  end.

(** [round(s, 2)]: [Series.round] does not round an [object] series. *)
Definition round_cell (c : Cell) : Cell :=
  match c with Num x => Num (round2 x) | _ => c end.

Definition round `{Pandas} {S} (s : Series) : M S Series :=
  if decide (dtype s = object) then
    if round_refuses_object
    then raise (TypeError "Expected numeric dtype, got object instead.")
    else ret s
  else ret (mkSeries (dtype s) (map round_cell (values s))).

(** [a - b] on two [datetime64] series followed by [.dt.days] *)
Definition days_between (a b : Cell) : Cell :=
  match a, b with
  | Stamp t, Stamp u =>
      Num (inject_Z (Calendar.days_from_civil t - Calendar.days_from_civil u))
  | _, _ => NA
  end.

Definition has_null (l : list Cell) : bool := existsb isnull l.

Definition sub_days {S} (a b : Series) : M S Series :=
  if decide (dtype a = datetime64 ∧ dtype b = datetime64) then
    let l := zip_with days_between (values a) (values b) in
    ret (mkSeries (if has_null l then float64 else int64) l)
  else raise (TypeError "unsupported operand type(s) for -").

(** The [.dt] accessor exists on datetime-like series only. *)
Definition dt {S} (s : Series) : M S (list Cell) :=
  if decide (dtype s = datetime64) then ret (values s)
  else raise (AttributeError "Can only use .dt accessor with datetimelike values").

Definition on_stamp (f : Timestamp → Cell) (c : Cell) : Cell :=
  match c with Stamp t => f t | _ => NA end.

(** An integer field of [.dt] ([year], [month], [quarter]): [int32], or
    [float64] when a value is missing. *)
Definition dt_field (f : Timestamp → Z) (l : list Cell) : Series :=
  mkSeries (if has_null l then float64 else int32)
           (map (on_stamp (λ t, Num (inject_Z (f t)))) l).

(** [.dt.strftime(fmt)] *)
Definition dt_strftime (f : Timestamp → string) (l : list Cell) : Series :=
  mkSeries object (map (on_stamp (λ t, Str (f t))) l).

(** [.dt.isocalendar().week.astype(int)]: a missing week cannot become an
    integer. *)
Definition dt_isoweek_int {S} (l : list Cell) : M S Series :=
  if forallb (λ c, match c with Stamp _ => true | _ => false end) l then
    ret (mkSeries int64 (map (on_stamp (λ t, Num (inject_Z (Calendar.isoweek t)))) l))
  else raise (ValueError "cannot convert NA to integer" []).

(** [.dt.dayofweek.isin([5, 6]).astype(int)] *)
Definition isin_5_6 (d : Z) : bool := bool_decide (d ∈ [5; 6]).

Definition weekend_cell (c : Cell) : Cell :=
  match c with
  | Stamp t => Num (if isin_5_6 (Calendar.dayofweek t) then 1 else 0)
  | _ => Num 0
  end.

Definition dt_is_weekend (l : list Cell) : Series :=
  mkSeries int64 (map weekend_cell l).

(** [s.fillna(v)] *)
Definition fillna (v : Cell) (d : DType) (s : Series) : Series :=
  mkSeries d (map (λ c, if isnull c then v else c) (values s)).

(** [(s < k).sum()] and [(s > k).sum()]: comparisons with a missing value
    are false; text and timestamps cannot be compared with a number. *)
Definition comparable (c : Cell) : bool :=
  match c with NA | Num _ => true | _ => false end.

Definition Qlt_bool (x y : Q) : bool := negb (Qle_bool y x).

Definition lt_cell (k : Q) (c : Cell) : bool :=
  match c with Num x => Qlt_bool x k | _ => false end.

Definition gt_cell (k : Q) (c : Cell) : bool :=
  match c with Num x => Qlt_bool k x | _ => false end.

Definition count_where (p : Cell → bool) (l : list Cell) : nat :=
  length (filter (λ c, p c = true) l).

Definition compare_count {S} (p : Cell → bool) (s : Series) : M S nat :=
  if forallb comparable (values s) then ret (count_where p (values s))
  else raise (TypeError "'<' not supported between instances of 'str' and 'int'").

End pd.

(** ** pipeline/transform.py *)

Module transform.
Section WithPandas.
Context `{Pandas} {S : Type}.

Definition clean_name (c : string) : string :=
  pd.str_replace "/" "_"
    (pd.str_replace "-" "_" (pd.str_replace " " "_" (pd.str_lower c))).

Definition clean_column_names (df : DataFrame) : M S DataFrame :=
  let* _ := log INFO "Cleaning column names..." [] in
  let df := pd.rename clean_name df in
  let* _ := log INFO "Columns standardized: {}" [ATexts (columns df)] in
  ret df.

Definition remove_duplicates (df : DataFrame) : M S DataFrame :=
  let* _ := log INFO "Checking for duplicates..." [] in
  let before := len df in
  let df := drop_duplicates df in
  let after := len df in
  let removed := (before - after)%nat in
  let* _ :=
    if (0 <? removed)%nat
    then log WARNING "Removed {} duplicate rows" [ANat removed]
    else log INFO "No duplicates found" [] in
  let* _ := log INFO "Rows before: {}" [ANat before] in
  let* _ := log INFO "Rows after : {}" [ANat after] in
  ret df.

Definition fix_data_types (df : DataFrame) : M S DataFrame :=
  let* _ := log INFO "Fixing data types..." [] in
  let* s := getitem df "order_date" in
  let df := setitem df "order_date" (pd.to_datetime s) in
  let* s := getitem df "ship_date" in
  let df := setitem df "ship_date" (pd.to_datetime s) in
  let* s := getitem df "sales" in
  let df := setitem df "sales" (pd.to_numeric s) in
  let* s := getitem df "profit" in
  let df := setitem df "profit" (pd.to_numeric s) in
  let* s := getitem df "discount" in
  let df := setitem df "discount" (pd.to_numeric s) in
  let* s := getitem df "quantity" in
  let* q := pd.astype_Int64 (pd.to_numeric s) in
  let df := setitem df "quantity" q in
  let* s := getitem df "order_date" in
  let date_nulls := null_count (values s) in
  let* _ :=
    if (0 <? date_nulls)%nat
    then log WARNING "{} order dates failed to parse" [ANat date_nulls]
    else log INFO "All dates converted successfully" [] in
  let* _ := log INFO "Data types fixed" [] in
  let* s := getitem df "order_date" in
  let* _ := log INFO "order_date : {}" [ADType (dtype s)] in
  let* s := getitem df "ship_date" in
  let* _ := log INFO "ship_date  : {}" [ADType (dtype s)] in
  let* s := getitem df "sales" in
  let* _ := log INFO "sales      : {}" [ADType (dtype s)] in
  let* s := getitem df "quantity" in
  let* _ := log INFO "quantity   : {}" [ADType (dtype s)] in
  ret df.

Definition add_derived_columns (df : DataFrame) : M S DataFrame :=
  let* _ := log INFO "Adding derived columns..." [] in
  let* profit := getitem df "profit" in
  let* sales := getitem df "sales" in
  let* ratio := pd.truediv profit (pd.replace_zero_NA sales) in
  let* percent := pd.mul ratio 100 in
  let* margin := pd.round percent in
  let df := setitem df "profit_margin" margin in
  let* ship := getitem df "ship_date" in
  let* order := getitem df "order_date" in
  let* days := pd.sub_days ship order in
  let df := setitem df "delivery_days" days in
  let* order := getitem df "order_date" in
  let* d := pd.dt order in
  let df := setitem df "order_year" (pd.dt_field year d) in
  let* order := getitem df "order_date" in
  let* d := pd.dt order in
  let df := setitem df "order_month" (pd.dt_field month d) in
  let* order := getitem df "order_date" in
  let* d := pd.dt order in
  let df := setitem df "order_quarter" (pd.dt_field Calendar.quarter d) in
  let* order := getitem df "order_date" in
  let* d := pd.dt order in
  let df := setitem df "order_month_name" (pd.dt_strftime Calendar.month_name d) in
  let* order := getitem df "order_date" in
  let* d := pd.dt order in
  let df := setitem df "order_day_name" (pd.dt_strftime Calendar.day_name d) in
  let* order := getitem df "order_date" in
  let* d := pd.dt order in
  let* week := pd.dt_isoweek_int d in
  let df := setitem df "order_week" week in
  let* order := getitem df "order_date" in
  let* d := pd.dt order in
  let df := setitem df "is_weekend" (pd.dt_is_weekend d) in
  let* _ := log INFO "Derived columns added:" [] in
  let* _ := log INFO "profit_margin  : profit as % of sales" [] in
  let* _ := log INFO "delivery_days  : days from order to ship" [] in
  let* _ := log INFO "order_year     : extracted year" [] in
  let* _ := log INFO "order_month    : extracted month number" [] in
  let* _ := log INFO "order_quarter  : Q1/Q2/Q3/Q4" [] in
  let* _ := log INFO "order_month_name: January, February..." [] in
  let* _ := log INFO "order_day_name : Monday, Tuesday..." [] in
  let* _ := log INFO "is_weekend     : 0=Weekday, 1=Weekend" [] in
  ret df.

(** [df.isnull().sum().sum()] *)
Definition total_nulls (df : DataFrame) : nat :=
  foldr (λ c n, (null_count (values (column df c)) + n)%nat) 0%nat (columns df).

Definition numeric_dtypes : list DType := [float64; int64; Int64].

(** The body of [for col in df.columns] in [handle_nulls]. *)
Fixpoint fill_columns (cols : list string) (df : DataFrame) : M S DataFrame :=
  match cols with
  | [] => ret df
  | col :: cols' =>
      let s := column df col in
      let null_count := null_count (values s) in
      if (0 <? null_count)%nat then
        if decide (dtype s ∈ numeric_dtypes) then
          let df := setitem df col (pd.fillna (Num 0) (dtype s) s) in
          let* _ := log WARNING "Filled {} nulls in '{}' with 0"
                        [ANat null_count; AText col] in
          fill_columns cols' df
        else
          let df := setitem df col (pd.fillna (Str "Unknown") object s) in
          let* _ := log WARNING "Filled {} nulls in '{}' with 'Unknown'"
                        [ANat null_count; AText col] in
          fill_columns cols' df
      else fill_columns cols' df
  end.

Definition handle_nulls (df : DataFrame) : M S DataFrame :=
  let* _ := log INFO "Handling null values..." [] in
  let null_before := total_nulls df in
  if (null_before =? 0)%nat then
    let* _ := log INFO "No null values to handle" [] in
    ret df
  else
    let* df := fill_columns (columns df) df in
    let null_after := total_nulls df in
    let* _ := log INFO "Null handling complete" [] in
    let* _ := log INFO "Nulls before : {}" [ANat null_before] in
    let* _ := log INFO "Nulls after  : {}" [ANat null_after] in
    ret df.

Definition critical_cols : list string :=
  ["order_id"; "order_date"; "customer_id"; "product_id"; "sales";
   "quantity"; "profit"]%string.

(** Check 1 of [validate_data]: the loop over the critical columns. *)
Fixpoint check_critical (df : DataFrame) (cols : list string) (errors : list Message)
  : M S (list Message) :=
  match cols with
  | [] => ret errors
  | col :: cols' =>
      let* s := getitem df col in
      let null_count := null_count (values s) in
      if (0 <? null_count)%nat then
        check_critical df cols'
          (errors ++ [mkMessage "Critical column '{}' has {} null values"
                        [AText col; ANat null_count]])
      else check_critical df cols' errors
  end.

Fixpoint log_errors (errors : list Message) : M S () :=
  match errors with
  | [] => ret ()
  | error :: errors' =>
      let* _ := log ERROR ("Validation failed: " +:+ template error) (args error) in
      log_errors errors'
  end.

Definition validate_data (df : DataFrame) : M S bool :=
  let* _ := log INFO "Validating transformed data..." [] in
  let* errors := check_critical df critical_cols [] in
  let* quantity := getitem df "quantity" in
  let* neg_qty := pd.compare_count (pd.lt_cell 0) quantity in
  let errors :=
    if (0 <? neg_qty)%nat
    then errors ++ [mkMessage "{} rows have negative quantity" [ANat neg_qty]]
    else errors in
  let* sales := getitem df "sales" in
  let* neg_sales := pd.compare_count (pd.lt_cell 0) sales in
  let errors :=
    if (0 <? neg_sales)%nat
    then errors ++ [mkMessage "{} rows have negative sales" [ANat neg_sales]]
    else errors in
  let* delivery := getitem df "delivery_days" in
  let* neg_delivery := pd.compare_count (pd.lt_cell 0) delivery in
  let* _ :=
    if (0 <? neg_delivery)%nat
    then log WARNING "{} rows have negative delivery days" [ANat neg_delivery]
    else ret () in
  let* discount := getitem df "discount" in
  let* bad_discount :=
    pd.compare_count (λ c, pd.lt_cell 0 c || pd.gt_cell 1 c) discount in
  let errors :=
    if (0 <? bad_discount)%nat
    then errors ++ [mkMessage "{} rows have invalid discount values" [ANat bad_discount]]
    else errors in
  match errors with
  | _ :: _ =>
      let* _ := log_errors errors in
      raise (ValueError "Data validation failed: {}" errors)
  | [] =>
      let* _ := log INFO "Data validation passed!" [] in
      let* _ := log INFO "All critical columns have no nulls" [] in
      let* _ := log INFO "All quantities are positive" [] in
      let* _ := log INFO "All sales values are positive" [] in
      let* _ := log INFO "All discounts are between 0 and 1" [] in
      ret true
  end.

(** The stages of [transform_data] up to the derivation stage. *)
Definition prepare (df : DataFrame) : M S DataFrame :=
  let* df := clean_column_names df in
  let* df := remove_duplicates df in
  fix_data_types df.

(** [transform_data]; the CSV snapshot written after validation is not
    part of the store. *)
Definition transform_data (df : DataFrame) : M S DataFrame :=
  let* _ := log INFO "TRANSFORM PHASE STARTED" [] in
  let* _ := log INFO "Input rows: {}" [ANat (len df)] in
  let* df := clean_column_names df in
  let* df := remove_duplicates df in
  let* df := fix_data_types df in
  let* df := add_derived_columns df in
  let* df := handle_nulls df in
  let* _ := validate_data df in
  let* _ := log INFO "Transformed data saved to: {}" [AText "transformed_sales.csv"] in
  let* _ := log INFO "Output rows : {}" [ANat (len df)] in
  let* _ := log INFO "Output cols : {}" [ANat (length (columns df))] in
  let* _ := log INFO "TRANSFORM PHASE COMPLETED" [] in
  ret df.

End WithPandas.
End transform.

(** ** The SQLite target *)

Module DimDate.
Record row := mk {
  date_key : Z;
  full_date : string;
  year : Z;
  quarter : Z;
  month : Z;
  month_name : string;
  day : Z;
  day_of_week : Z;
  day_name : string;
  week_of_year : Z;
  is_weekend : Z
}.
End DimDate.

Module DimCustomer.
Record row := mk {
  customer_key : Z;
  customer_id : Cell;
  customer_name : Cell;
  segment : Cell;
  country : Cell;
  city : Cell;
  state : Cell;
  postal_code : Cell;
  region : Cell;
  first_order_date : Cell;
  last_order_date : Cell
}.
End DimCustomer.

Module DimProduct.
Record row := mk {
  product_key : Z;
  product_id : Cell;
  product_name : Cell;
  category : Cell;
  sub_category : Cell
}.
End DimProduct.

Module DimShipping.
Record row := mk { shipping_key : Z; ship_mode : Cell }.
End DimShipping.

Module FactSales.
Record row := mk {
  sales_key : Z;
  order_id : Cell;
  order_date_key : Cell;
  ship_date_key : Cell;
  customer_key : Cell;
  product_key : Cell;
  shipping_key : Cell;
  quantity : Cell;
  sales_amount : Cell;
  discount : Cell;
  profit : Cell
}.
End FactSales.

(** The six tables of [create_schema]. *)
Record Database := mkDatabase {
  staging_raw_sales : list (gmap string Cell);
  dim_date : list DimDate.row;
  dim_customer : list DimCustomer.row;
  dim_product : list DimProduct.row;
  dim_shipping : list DimShipping.row;
  fact_sales : list FactSales.row
}.

Definition empty_database : Database := mkDatabase [] [] [] [] [] [].

Module sql.

(** [INTEGER PRIMARY KEY AUTOINCREMENT]: one more than the largest key of
    the table. *)
Definition last_key (keys : list Z) : Z := foldr Z.max 0 keys.

Fixpoint autoincrement {A B} (mk : Z → A → B) (next : Z) (l : list A) : list B :=
  match l with
  | [] => []
  | x :: l' => mk next x :: autoincrement mk (next + 1) l'
  end.

(** [UNIQUE NOT NULL] on a column, checked over the table and the rows to
    insert. *)
Definition unique_not_null (old new : list Cell) : bool :=
  forallb notnull new && bool_decide (NoDup (old ++ new)).

End sql.

(** ** pipeline/load.py *)

Module load.

Abbreviation L := (M Database).

Definition modify (f : Database → Database) : L () :=
  let* db := get in put (f db).

(** [df[cols]]: a missing label is a [KeyError]. *)
Definition project (cols : list string) (r : gmap string Cell) : gmap string Cell :=
  list_to_map (map (λ c, (c, cell r c)) cols).

Definition getitems {S} (df : DataFrame) (cols : list string) : M S DataFrame :=
  match filter (λ c, c ∉ columns df) cols with
  | [] =>
      ret (mkDataFrame cols
             (list_to_map (map (λ c, (c, dtypes df !!! c)) cols))
             (map (project cols) (rows df)))
  | c :: _ => raise (KeyError c)
  end.

(** The timestamps of a column, missing values dropped ([dropna]). *)
Definition stamps (l : list Cell) : list Timestamp :=
  omap (λ c, match c with Stamp t => Some t | _ => None end) l.

(** [load_staging] has applied [.dt] to both date columns before any other
    loader runs; the loaders below therefore read these columns as
    [datetime64] and refuse any other dtype. *)
Definition datetime_column {S} (df : DataFrame) (c : string) : M S (list Cell) :=
  let* s := getitem df c in
  if decide (dtype s = datetime64) then ret (values s)
  else raise (TypeError "datetime64 column expected").

(** [pd.Series.unique()] and [sorted(...)] *)
Definition unique (l : list Timestamp) : list Timestamp := keep_first id [] l.

Fixpoint insort (t : Timestamp) (l : list Timestamp) : list Timestamp :=
  match l with
  | [] => [t]
  | u :: l' => if Calendar.leb t u then t :: l else u :: insort t l'
  end.

Definition sorted (l : list Timestamp) : list Timestamp := foldr insort [] l.

Definition get_engine : L () :=
  log INFO "Database engine created: {}" [AText "DB_PATH"].

(** [create_schema]: every table is dropped and created again, empty. *)
Definition create_schema : L () :=
  let* _ := log INFO "Creating database schema..." [] in
  let* _ := put empty_database in
  let* _ := log INFO "Database schema created successfully" [] in
  let* _ := log INFO "Tables: staging, dim_date, dim_customer," [] in
  let* _ := log INFO "dim_product, dim_shipping, fact_sales" [] in
  log INFO "Indexes: 9 performance indexes created" [].

Definition staging_cols : list string :=
  ["order_id"; "order_date"; "ship_date"; "ship_mode"; "customer_id";
   "customer_name"; "segment"; "country"; "city"; "state"; "postal_code";
   "region"; "product_id"; "category"; "sub_category"; "product_name";
   "sales"; "quantity"; "discount"; "profit"]%string.

Definition load_staging (df : DataFrame) : L nat :=
  let* _ := log INFO "Loading data into staging table..." [] in
  let* staging_df := getitems df staging_cols in
  let* s := getitem staging_df "order_date" in
  let* d := pd.dt s in
  let staging_df :=
    setitem staging_df "order_date" (pd.dt_strftime Calendar.strftime_iso d) in
  let* s := getitem staging_df "ship_date" in
  let* d := pd.dt s in
  let staging_df :=
    setitem staging_df "ship_date" (pd.dt_strftime Calendar.strftime_iso d) in
  let* _ := modify (λ db,
    mkDatabase (staging_raw_sales db ++ rows staging_df) (dim_date db)
               (dim_customer db) (dim_product db) (dim_shipping db)
               (fact_sales db)) in
  let* _ := log INFO "Staging table loaded: {} rows" [ANat (len staging_df)] in
  ret (len staging_df).

Definition date_row (date : Timestamp) : DimDate.row :=
  DimDate.mk
    (Calendar.date_key date)
    (Calendar.strftime_iso date)
    (year date)
    (Calendar.quarter date)
    (month date)
    (Calendar.month_name date)
    (day date)
    (Calendar.dayofweek date)
    (Calendar.day_name date)
    (Calendar.isoweek date)
    (if 5 <=? Calendar.dayofweek date then 1 else 0).

Definition load_dim_date (df : DataFrame) : L nat :=
  let* _ := log INFO "Loading dim_date..." [] in
  let* order_dates := datetime_column df "order_date" in
  let* ship_dates := datetime_column df "ship_date" in
  let all_dates := unique (stamps order_dates ++ stamps ship_dates) in
  let all_dates := sorted all_dates in
  let date_rows := map date_row all_dates in
  let* db := get in
  if bool_decide (NoDup (map DimDate.date_key (dim_date db ++ date_rows))) then
    let* _ := put (mkDatabase (staging_raw_sales db) (dim_date db ++ date_rows)
                     (dim_customer db) (dim_product db) (dim_shipping db)
                     (fact_sales db)) in
    let* _ := log INFO "dim_date loaded: {} rows" [ANat (length date_rows)] in
    ret (length date_rows)
  else raise (IntegrityError "dim_date").

Definition customer_cols : list string :=
  ["customer_id"; "customer_name"; "segment"; "country"; "city"; "state";
   "postal_code"; "region"]%string.

Definition earliest (l : list Timestamp) : Cell :=
  match l with
  | [] => NA
  | t :: l' => Stamp (foldr (λ a b, if Calendar.ltb a b then a else b) t l')
  end.

Definition latest (l : list Timestamp) : Cell :=
  match l with
  | [] => NA
  | t :: l' => Stamp (foldr (λ a b, if Calendar.ltb b a then a else b) t l')
  end.

(** The order dates of one customer; [groupby] leaves out a missing key. *)
Definition dates_of (df : DataFrame) (id : Cell) : list Timestamp :=
  if isnull id then []
  else stamps (map (λ r, cell r "order_date")
                   (filter (λ r, cell r "customer_id" = id) (rows df))).

Definition customer_row (df : DataFrame) (key : Z) (r : gmap string Cell)
  : DimCustomer.row :=
  let dates := dates_of df (cell r "customer_id") in
  DimCustomer.mk key
    (cell r "customer_id") (cell r "customer_name") (cell r "segment")
    (cell r "country") (cell r "city") (cell r "state") (cell r "postal_code")
    (cell r "region")
    (pd.on_stamp (λ t, Str (Calendar.strftime_iso t)) (earliest dates))
    (pd.on_stamp (λ t, Str (Calendar.strftime_iso t)) (latest dates)).

Definition load_dim_customer (df : DataFrame) : L nat :=
  let* _ := log INFO "Loading dim_customer..." [] in
  let* _ := getitem df "customer_id" in
  let* _ := datetime_column df "order_date" in
  let* customers := getitems df customer_cols in
  let dim_customer_df :=
    keep_first (λ r, cell r "customer_id") [] (rows customers) in
  let* db := get in
  if sql.unique_not_null (map DimCustomer.customer_id (dim_customer db))
                         (map (λ r, cell r "customer_id") dim_customer_df) then
    let new :=
      sql.autoincrement (customer_row df)
        (sql.last_key (map DimCustomer.customer_key (dim_customer db)) + 1)
        dim_customer_df in
    let* _ := put (mkDatabase (staging_raw_sales db) (dim_date db)
                     (dim_customer db ++ new) (dim_product db) (dim_shipping db)
                     (fact_sales db)) in
    let* _ := log INFO "dim_customer loaded: {} rows" [ANat (length dim_customer_df)] in
    ret (length dim_customer_df)
  else raise (IntegrityError "dim_customer").

Definition product_cols : list string :=
  ["product_id"; "product_name"; "category"; "sub_category"]%string.

Definition product_row (key : Z) (r : gmap string Cell) : DimProduct.row :=
  DimProduct.mk key (cell r "product_id") (cell r "product_name")
                (cell r "category") (cell r "sub_category").

Definition load_dim_product (df : DataFrame) : L nat :=
  let* _ := log INFO "Loading dim_product..." [] in
  let* products := getitems df product_cols in
  let dim_product_df :=
    keep_first (λ r, cell r "product_id") [] (rows products) in
  let* db := get in
  if sql.unique_not_null (map DimProduct.product_id (dim_product db))
                         (map (λ r, cell r "product_id") dim_product_df) then
    let new :=
      sql.autoincrement product_row
        (sql.last_key (map DimProduct.product_key (dim_product db)) + 1)
        dim_product_df in
    let* _ := put (mkDatabase (staging_raw_sales db) (dim_date db)
                     (dim_customer db) (dim_product db ++ new) (dim_shipping db)
                     (fact_sales db)) in
    let* _ := log INFO "dim_product loaded: {} rows" [ANat (length dim_product_df)] in
    ret (length dim_product_df)
  else raise (IntegrityError "dim_product").

Definition shipping_row (key : Z) (r : gmap string Cell) : DimShipping.row :=
  DimShipping.mk key (cell r "ship_mode").

Definition load_dim_shipping (df : DataFrame) : L nat :=
  let* _ := log INFO "Loading dim_shipping..." [] in
  let* modes := getitems df ["ship_mode"%string] in
  let dim_shipping_df :=
    keep_first (row_values ["ship_mode"%string]) [] (rows modes) in
  let* db := get in
  if sql.unique_not_null (map DimShipping.ship_mode (dim_shipping db))
                         (map (λ r, cell r "ship_mode") dim_shipping_df) then
    let new :=
      sql.autoincrement shipping_row
        (sql.last_key (map DimShipping.shipping_key (dim_shipping db)) + 1)
        dim_shipping_df in
    let* _ := put (mkDatabase (staging_raw_sales db) (dim_date db)
                     (dim_customer db) (dim_product db) (dim_shipping db ++ new)
                     (fact_sales db)) in
    let* _ := log INFO "dim_shipping loaded: {} rows" [ANat (length dim_shipping_df)] in
    ret (length dim_shipping_df)
  else raise (IntegrityError "dim_shipping").

(** [.dt.strftime('%Y%m%d').astype(int)]: a missing date cannot become an
    integer. *)
Definition date_keys {S} (l : list Cell) : M S Series :=
  if forallb (λ c, match c with Stamp _ => true | _ => false end) l then
    ret (mkSeries int64
           (map (pd.on_stamp
                   (λ t, Num (inject_Z (Calendar.date_key t)))) l))
  else raise (ValueError "cannot convert float NaN to integer" []).

(** [df.columns] with one label changed. *)
Definition rename_column (old new : string) : DataFrame → DataFrame :=
  pd.rename (λ c, if decide (c = old) then new else c).

(** [left.merge(right, on=on, how='left')] where [right] has the two columns
    [key] and [on], read from a table whose [on] column is [TEXT].  A left
    row is repeated once per matching right row, and kept once with a
    missing [key] when nothing matches; a label present on both sides gets
    the suffixes [_x] and [_y]. *)
Definition matches (right : list (Cell * Z)) (v : Cell) : list (Cell * Z) :=
  filter (λ p, p.1 = v) right.

Definition merge_row (right : list (Cell * Z)) (on key : string)
    (r : gmap string Cell) : list (gmap string Cell) :=
  match matches right (cell r on) with
  | [] => [<[key := NA]> r]
  | ms => map (λ p, <[key := Num (inject_Z p.2)]> r) ms
  end.

Definition merge_left {S} (left : DataFrame) (right : list (Cell * Z))
    (on key : string) : M S DataFrame :=
  let* s := getitem left on in
  if decide (dtype s = object) then
    let clash := bool_decide (key ∈ columns left) in
    let left := if clash then rename_column key (key +:+ "_x") left else left in
    let key := if clash then key +:+ "_y" else key in
    let merged := flat_map (merge_row right on key) (rows left) in
    ret (mkDataFrame (columns left ++ [key])
           (<[key := if pd.has_null (map (λ r, cell r key) merged)
                     then float64 else int64]> (dtypes left))
           merged)
  else raise (ValueError "You are trying to merge on {} and object columns" []).

Definition fact_cols : list string :=
  ["order_id"; "order_date_key"; "ship_date_key"; "customer_key";
   "product_key"; "shipping_key"; "quantity"; "sales"; "discount";
   "profit"]%string.

(** The columns of [fact_sales] declared [NOT NULL], under the labels of
    [fact_df] before [sales] is renamed. *)
Definition fact_not_null : list string :=
  ["order_id"; "order_date_key"; "ship_date_key"; "customer_key";
   "product_key"; "shipping_key"; "quantity"; "sales"; "profit"]%string.

Definition fact_row (key : Z) (r : gmap string Cell) : FactSales.row :=
  FactSales.mk key (cell r "order_id") (cell r "order_date_key")
    (cell r "ship_date_key") (cell r "customer_key") (cell r "product_key")
    (cell r "shipping_key") (cell r "quantity") (cell r "sales")
    (cell r "discount") (cell r "profit").

(** [load_fact_sales] adds the two date-key columns to the caller's frame;
    the frame so changed is returned next to the row count. *)
Definition load_fact_sales (df : DataFrame) : L (nat * DataFrame) :=
  let* _ := log INFO "Loading fact_sales..." [] in
  let* db := get in
  let customers :=
    map (λ r, (DimCustomer.customer_id r, DimCustomer.customer_key r))
        (dim_customer db) in
  let products :=
    map (λ r, (DimProduct.product_id r, DimProduct.product_key r))
        (dim_product db) in
  let shipping :=
    map (λ r, (DimShipping.ship_mode r, DimShipping.shipping_key r))
        (dim_shipping db) in
  let* d := datetime_column df "order_date" in
  let* keys := date_keys d in
  let df := setitem df "order_date_key" keys in
  let* d := datetime_column df "ship_date" in
  let* keys := date_keys d in
  let df := setitem df "ship_date_key" keys in
  let* fact := merge_left df customers "customer_id" "customer_key" in
  let* fact := merge_left fact products "product_id" "product_key" in
  let* fact := merge_left fact shipping "ship_mode" "shipping_key" in
  let* fact_df := getitems fact fact_cols in
  let* db := get in
  if forallb (λ r, forallb (λ c, notnull (cell r c)) fact_not_null) (rows fact_df)
  then
    let new :=
      sql.autoincrement fact_row
        (sql.last_key (map FactSales.sales_key (fact_sales db)) + 1)
        (rows fact_df) in
    let* _ := put (mkDatabase (staging_raw_sales db) (dim_date db)
                     (dim_customer db) (dim_product db) (dim_shipping db)
                     (fact_sales db ++ new)) in
    let* _ := log INFO "fact_sales loaded: {} rows" [ANat (len fact_df)] in
    ret (len fact_df, df)
  else raise (IntegrityError "fact_sales").

(** The [tables] dictionary of [validate_load]: a table name and its
    [SELECT COUNT( * )]. *)
Definition tables : list (string * (Database → nat)) :=
  [("staging_raw_sales", λ db, length (staging_raw_sales db));
   ("dim_date", λ db, length (dim_date db));
   ("dim_customer", λ db, length (dim_customer db));
   ("dim_product", λ db, length (dim_product db));
   ("dim_shipping", λ db, length (dim_shipping db));
   ("fact_sales", λ db, length (fact_sales db))]%string.

Fixpoint count_tables (queries : list (string * (Database → nat)))
    (counts : list (string * nat)) : L (list (string * nat)) :=
  match queries with
  | [] => ret counts
  | (table, query) :: queries' =>
      let* db := get in
      let count := query db in
      let* _ := log INFO "{}: {} rows" [AText table; ANat count] in
      count_tables queries' (counts ++ [(table, count)])
  end.

(** [counts[table]] *)
Definition count_of (counts : list (string * nat)) (table : string) : nat :=
  match list_find (λ p, p.1 = table) counts with
  | Some (_, (_, count)) => count
  | None => 0%nat
  end.

Definition validate_load (source_rows : nat) : L (list (string * nat)) :=
  let* _ := log INFO "Validating loaded data..." [] in
  let* counts := count_tables tables [] in
  if decide (count_of counts "fact_sales" ≠ source_rows) then
    let* _ := log ERROR "Row count mismatch! Source: {}, Fact: {}"
                  [ANat source_rows; ANat (count_of counts "fact_sales")] in
    raise (ValueError "Load validation failed - row count mismatch!" [])
  else
    let* _ := log INFO "Load validation passed!" [] in
    let* _ := log INFO "Source rows  : {} = Fact rows: {}"
                  [ANat source_rows; ANat (count_of counts "fact_sales")] in
    ret counts.

Definition load_data (df : DataFrame) : L (list (string * nat)) :=
  let* _ := log INFO "LOAD PHASE STARTED" [] in
  let* _ := log INFO "Input rows: {}" [ANat (len df)] in
  let* _ := get_engine in
  let* _ := create_schema in
  let* _ := load_staging df in
  let* _ := load_dim_date df in
  let* _ := load_dim_customer df in
  let* _ := load_dim_product df in
  let* _ := load_dim_shipping df in
  let* '(_, df) := load_fact_sales df in
  let* counts := validate_load (len df) in
  let* _ := log INFO "LOAD PHASE COMPLETED" [] in
  ret counts.

End load.

(** ** pipeline/main.py *)

Module main.
Section WithPandas.
Context `{Pandas}.

(** [try: ... except E as e: handler; raise] *)
Definition try_except {S A} (body : M S A) (handler : Exception → M S ())
  : M S A :=
  λ s,
    match body s with
    | (Raise e, s', l) =>
        let '(_, s'', l') := handler e s' in (Raise e, s'', l ++ l')
    | done => done
    end.

Definition on_failure {S} (e : Exception) : M S () :=
  match e with
  | ValueError _ _ => log ERROR "PIPELINE FAILED - VALIDATION ERROR" []
  | _ => log ERROR "PIPELINE FAILED - UNEXPECTED ERROR" []
  end.

(** [run_pipeline] from the frame that the extract phase has read:
    transform, then load.  The transform phase has no access to the
    database. *)
Definition run_pipeline (df_raw : DataFrame) : M Database (list (string * nat)) :=
  let* _ := log INFO "AUTOMATED SALES REPORTING PIPELINE" [] in
  try_except
    (let* _ := log INFO ">>> PHASE 2: TRANSFORM" [] in
     let* df_transformed := lift (transform.transform_data df_raw) in
     let* _ := log INFO ">>> PHASE 2 COMPLETED" [] in
     let* _ := log INFO ">>> PHASE 3: LOAD" [] in
     let* load_counts := load.load_data df_transformed in
     let* _ := log INFO ">>> PHASE 3 COMPLETED" [] in
     let* _ := log INFO "PIPELINE EXECUTION SUMMARY" [] in
     ret load_counts)
    on_failure.

End WithPandas.
End main.

(** ** scripts/export_for_tableau.py *)

Module export.

(** A row of the query's result, under the aliases of its [SELECT] list. *)
Record row := mk {
  order_id : Cell;
  sales_amount : Cell;
  profit : Cell;
  quantity : Cell;
  discount : Cell;
  full_date : string;
  order_year : Z;
  order_month : Z;
  order_month_name : string;
  order_quarter : Z;
  order_day_name : string;
  is_weekend : Z;
  customer_id : Cell;
  customer_name : Cell;
  segment : Cell;
  city : Cell;
  state : Cell;
  region : Cell;
  country : Cell;
  product_id : Cell;
  product_name : Cell;
  category : Cell;
  sub_category : Cell;
  ship_mode : Cell
}.

(** [ON f.key = t.key]: the number stored in the fact row against the
    integer key of the joined table; [NULL] and text equal no key. *)
Definition on (fk : Cell) (pk : Z) : bool :=
  match fk with
  | Num x => Qeq_bool x (inject_Z pk)
  | _ => false
  end.

(** [FROM fact_sales f JOIN dim_date d ... JOIN dim_customer c ...
    JOIN dim_product p ... JOIN dim_shipping s ...], as nested loops in the
    order of the [FROM] clause. *)
Definition query (db : Database) : list row :=
  flat_map (λ f,
    flat_map (λ d,
      flat_map (λ c,
        flat_map (λ p,
          map (λ s,
            mk (FactSales.order_id f) (FactSales.sales_amount f)
               (FactSales.profit f) (FactSales.quantity f)
               (FactSales.discount f)
               (DimDate.full_date d) (DimDate.year d) (DimDate.month d)
               (DimDate.month_name d) (DimDate.quarter d)
               (DimDate.day_name d) (DimDate.is_weekend d)
               (DimCustomer.customer_id c) (DimCustomer.customer_name c)
               (DimCustomer.segment c) (DimCustomer.city c)
               (DimCustomer.state c) (DimCustomer.region c)
               (DimCustomer.country c)
               (DimProduct.product_id p) (DimProduct.product_name p)
               (DimProduct.category p) (DimProduct.sub_category p)
               (DimShipping.ship_mode s))
            (filter (λ s, on (FactSales.shipping_key f)
                             (DimShipping.shipping_key s) = true)
                    (dim_shipping db)))
          (filter (λ p, on (FactSales.product_key f)
                           (DimProduct.product_key p) = true)
                  (dim_product db)))
        (filter (λ c, on (FactSales.customer_key f)
                         (DimCustomer.customer_key c) = true)
                (dim_customer db)))
      (filter (λ d, on (FactSales.order_date_key f)
                       (DimDate.date_key d) = true)
              (dim_date db)))
    (fact_sales db).

(** [len(df)] of the exported frame *)
Definition rows_exported (db : Database) : nat := length (query db).

End export.

(** ** A concrete pandas

    Parsers for the strict forms [YYYY-MM-DD] and [-?digits(.digits)?], and a
    [Series.round] that refuses [object]; used to run the pipeline on concrete
    batches. *)

Module Strict.

Definition is_digit (a : ascii) : bool :=
  let n := nat_of_ascii a in (48 <=? n)%nat && (n <=? 57)%nat.

Fixpoint all_digits (s : string) : bool :=
  match s with
  | EmptyString => true
  | String a s' => is_digit a && all_digits s'
  end.

Definition digits (s : string) : bool :=
  all_digits s && negb (String.eqb s "").

Definition of_chars (l : list ascii) : string := string_of_list_ascii l.

Definition date (s : string) : option Timestamp :=
  match list_ascii_of_string s with
  | [y1; y2; y3; y4; s1; m1; m2; s2; d1; d2] =>
      if all_digits (of_chars [y1; y2; y3; y4; m1; m2; d1; d2])
         && Ascii.eqb s1 "-" && Ascii.eqb s2 "-"
      then
        let t := mkTimestamp (Calendar.int (of_chars [y1; y2; y3; y4]))
                             (Calendar.int (of_chars [m1; m2]))
                             (Calendar.int (of_chars [d1; d2])) in
        if Calendar.validb t then Some t else None
      else None
  | _ => None
  end.

Fixpoint split_dot (s : string) : string * option string :=
  match s with
  | EmptyString => (EmptyString, None)
  | String a s' =>
      if Ascii.eqb a "." then (EmptyString, Some s')
      else let '(i, f) := split_dot s' in (String a i, f)
  end.

Definition unsigned (s : string) : option Literal :=
  match split_dot s with
  | (i, None) =>
      if digits i then Some (IntLit (inject_Z (Calendar.int i))) else None
  | (i, Some f) =>
      if digits i && digits f
      then Some (FloatLit (Qred (Calendar.int (i +:+ f)
                                 # Pos.pow 10 (Pos.of_nat (String.length f)))))
      else None
  end.

Definition negate (l : Literal) : Literal :=
  match l with
  | IntLit x => IntLit (Qred (- x))
  | FloatLit x => FloatLit (Qred (- x))
  end.

Definition number (s : string) : option Literal :=
  match s with
  | String a s' => if Ascii.eqb a "-" then negate <$> unsigned s' else unsigned s
  | EmptyString => None
  end.

Lemma validb_valid t : Calendar.validb t = true → Calendar.valid t.
Proof.
  unfold Calendar.validb, Calendar.valid. intros Hv.
  repeat (apply andb_prop in Hv; destruct Hv as [Hv ?]). lia.
Qed.

Lemma date_valid s t : date s = Some t → Calendar.valid t.
Proof.
  unfold date. intros Hd.
  repeat (case_match; try discriminate).
  inversion Hd; subst. by apply validb_valid.
Qed.

#[global] Instance pandas : Pandas :=
  {| strptime_Ymd := date;
     parse_number := number;
     round_refuses_object := true;
     strptime_Ymd_valid := date_valid |}.

End Strict.

Module Fixture.
Local Open Scope string_scope.

(** A frame from its header and its rows. *)
Definition frame (header : list (string * DType)) (data : list (list Cell))
  : DataFrame :=
  mkDataFrame header.*1 (list_to_map header)
              (map (λ r, list_to_map (zip header.*1 r)) data).

Definition raw_header : list (string * DType) :=
  [("Order ID", object); ("Order Date", object); ("Ship Date", object);
   ("Ship Mode", object); ("Customer ID", object); ("Customer Name", object);
   ("Segment", object); ("Country", object); ("City", object); ("State", object);
   ("Postal Code", object); ("Region", object); ("Product ID", object);
   ("Category", object); ("Sub-Category", object); ("Product Name", object);
   ("Sales", float64); ("Quantity", int64); ("Discount", float64);
   ("Profit", float64)].

Definition A : list Cell :=
  [Str "CA-2019-001"; Str "2019-01-03"; Str "2019-01-07"; Str "Standard Class";
   Str "CUST-001"; Str "John Doe"; Str "Consumer"; Str "United States";
   Str "New York"; Str "New York"; Str "10001"; Str "East"; Str "PROD-001";
   Str "Technology"; Str "Phones"; Str "Phone A";
   Num 100; Num 1; Num 0; Num 20].

Definition B : list Cell :=
  [Str "CA-2019-002"; Str "2019-01-04"; Str "2019-01-08"; Str "First Class";
   Str "CUST-002"; Str "Jane Smith"; Str "Corporate"; Str "United States";
   Str "Los Angeles"; Str "California"; Str "90001"; Str "West"; Str "PROD-002";
   Str "Furniture"; Str "Chairs"; Str "Chair B";
   Num 200; Num 2; Num 0.1; Num 40].

Definition C : list Cell :=
  [Str "CA-2019-003"; Str "2019-01-05"; Str "2019-01-09"; Str "Second Class";
   Str "CUST-003"; Str "Bob Johnson"; Str "Home Office"; Str "United States";
   Str "Chicago"; Str "Illinois"; Str "60601"; Str "Central"; Str "PROD-003";
   Str "Office Supplies"; Str "Paper"; Str "Paper C";
   Num 50; Num 3; Num 0.2; Num 10].

(** The sample batch of the repository's tests: rows A, B, C, A. *)
Definition sample_raw_df : DataFrame := frame raw_header [A; B; C; A].

(** The sample batch as the transform phase hands it to the load phase. *)
Definition transformed : DataFrame :=
  match result (transform.transform_data sample_raw_df ()) with
  | Ok df => df
  | Raise _ => sample_raw_df
  end.

(** A batch with missing values in a text, a numeric and a date column. *)
Definition with_nulls : DataFrame :=
  frame [("order_id", object); ("sales", float64); ("ship_date", datetime64);
         ("order_year", int32)]
        [[Str "CA-2019-001"; NA; NA; Num 2019];
         [NA; Num 5; Stamp (mkTimestamp 2019 1 7); Num 2019]].

(** Row B with no ship date, row B with an order date in another format,
    and row C given away (no sale, no profit). *)
Definition B_unshipped : list Cell :=
  [Str "CA-2019-002"; Str "2019-01-04"; NA; Str "First Class";
   Str "CUST-002"; Str "Jane Smith"; Str "Corporate"; Str "United States";
   Str "Los Angeles"; Str "California"; Str "90001"; Str "West"; Str "PROD-002";
   Str "Furniture"; Str "Chairs"; Str "Chair B";
   Num 200; Num 2; Num 0.1; Num 40].

Definition B_undated : list Cell :=
  [Str "CA-2019-002"; Str "04/01/2019"; Str "2019-01-08"; Str "First Class";
   Str "CUST-002"; Str "Jane Smith"; Str "Corporate"; Str "United States";
   Str "Los Angeles"; Str "California"; Str "90001"; Str "West"; Str "PROD-002";
   Str "Furniture"; Str "Chairs"; Str "Chair B";
   Num 200; Num 2; Num 0.1; Num 40].

Definition C_free : list Cell :=
  [Str "CA-2019-003"; Str "2019-01-05"; Str "2019-01-09"; Str "Second Class";
   Str "CUST-003"; Str "Bob Johnson"; Str "Home Office"; Str "United States";
   Str "Chicago"; Str "Illinois"; Str "60601"; Str "Central"; Str "PROD-003";
   Str "Office Supplies"; Str "Paper"; Str "Paper C";
   Num 0; Num 3; Num 1; Num 0].

Definition unshipped_raw_df : DataFrame := frame raw_header [A; B_unshipped].

Definition undated_raw_df : DataFrame := frame raw_header [A; B_undated].

Definition free_raw_df : DataFrame := frame raw_header [A; C_free].

(** The batch with the unshipped order as the transform phase hands it to
    the load phase. *)
Definition unshipped : DataFrame :=
  match result (transform.transform_data unshipped_raw_df ()) with
  | Ok df => df
  | Raise _ => unshipped_raw_df
  end.

End Fixture.

(** * Verification *)

(** ** Reasoning about the effect monad *)

Section Monad.
Context {S A B : Type}.

Lemma bind_Ok (m : M S A) (k : A → M S B) s b s2 l :
  bind m k s = (Ok b, s2, l) →
  ∃ a s1 l1 l2, m s = (Ok a, s1, l1) ∧ k a s1 = (Ok b, s2, l2) ∧ l = l1 ++ l2.
Proof.
  unfold bind. destruct (m s) as [[[a|e] s1] l1]; [|discriminate].
  destruct (k a s1) as [[r s'] l2] eqn:Hk. intros [= -> -> <-]. eauto 10.
Qed.

Lemma bind_Raise (m : M S A) (k : A → M S B) s e s2 l :
  bind m k s = (Raise e, s2, l) →
  m s = (Raise e, s2, l) ∨
  ∃ a s1 l1 l2, m s = (Ok a, s1, l1) ∧ k a s1 = (Raise e, s2, l2) ∧ l = l1 ++ l2.
Proof.
  unfold bind. destruct (m s) as [[[a|e'] s1] l1]; [|intros [= -> -> ->]; by left].
  destruct (k a s1) as [[r s'] l2] eqn:Hk. intros [= -> -> <-]. right. eauto 10.
Qed.

Lemma bind_eval (m : M S A) (k : A → M S B) s a s1 l1 :
  m s = (Ok a, s1, l1) →
  bind m k s = ((k a s1).1.1, (k a s1).1.2, l1 ++ (k a s1).2).
Proof. unfold bind. intros ->. by destruct (k a s1) as [[??]?]. Qed.

Lemma bind_fail (m : M S A) (k : A → M S B) s e s1 l1 :
  m s = (Raise e, s1, l1) → bind m k s = (Raise e, s1, l1).
Proof. unfold bind. by intros ->. Qed.

End Monad.

Lemma lift_store {S A} (m : M () A) (s : S) : store (lift m s) = s.
Proof. unfold lift, store. by destruct (m ()) as [[??]?]. Qed.

Lemma lift_result {S A} (m : M () A) (s : S) : result (lift m s) = result (m ()).
Proof. unfold lift, result. by destruct (m ()) as [[??]?]. Qed.

(** ** The two weekend flags *)

Lemma dayofweek_range t : 0 <= Calendar.dayofweek t < 7.
Proof. unfold Calendar.dayofweek. apply Z.mod_pos_bound. lia. Qed.

Lemma isin_5_6_ge d : 0 <= d < 7 → pd.isin_5_6 d = (5 <=? d).
Proof.
  intros Hrange. unfold pd.isin_5_6.
  destruct (Z.leb_spec 5 d).
  - apply bool_decide_eq_true. destruct (decide (d = 5)) as [Heq | Hne]; [rewrite Heq; left|].
    assert (d = 6) as Heq by lia. rewrite Heq. right; left.
  - apply bool_decide_eq_false. intros Hin.
    apply elem_of_cons in Hin as [-> | Hin]; [lia|].
    apply elem_of_cons in Hin as [-> | Hin]; [lia|]. by apply elem_of_nil in Hin.
Qed.

Lemma day_name_weekend t :
  5 <= Calendar.dayofweek t ↔
  Calendar.day_name t = "Saturday"%string ∨ Calendar.day_name t = "Sunday"%string.
Proof.
  unfold Calendar.day_name. pose proof (dayofweek_range t) as Hr.
  assert (Calendar.dayofweek t = 0 ∨ Calendar.dayofweek t = 1 ∨ Calendar.dayofweek t = 2
          ∨ Calendar.dayofweek t = 3 ∨ Calendar.dayofweek t = 4
          ∨ Calendar.dayofweek t = 5 ∨ Calendar.dayofweek t = 6) as Hc by lia.
  destruct Hc as [-> | [-> | [-> | [-> | [-> | [-> | ->]]]]]]; simpl;
    split; try lia; try (intros [? | ?]; discriminate); eauto.
Qed.


(** ** Load reconciliation *)

Lemma count_tables_eval db :
  load.count_tables load.tables [] db =
  (Ok (map (λ t, (t.1, t.2 db)) load.tables), db,
   map (λ t, mkLogRecord INFO (mkMessage "{}: {} rows" [AText t.1; ANat (t.2 db)]))
       load.tables).
Proof. reflexivity. Qed.

Lemma count_of_fact db :
  load.count_of (map (λ t, (t.1, t.2 db)) load.tables) "fact_sales"
  = length (fact_sales db).
Proof. reflexivity. Qed.

Lemma validate_load_eval (db : Database) (source_rows : nat) :
  load.validate_load source_rows db =
  let counts := map (λ t, (t.1, t.2 db)) load.tables in
  let seen := map (λ t, mkLogRecord INFO (mkMessage "{}: {} rows" [AText t.1; ANat (t.2 db)]))
       load.tables in
  if decide (length (fact_sales db) ≠ source_rows) then
    (Raise (ValueError "Load validation failed - row count mismatch!" []), db,
     mkLogRecord INFO (mkMessage "Validating loaded data..." []) :: seen ++
     [mkLogRecord ERROR (mkMessage "Row count mismatch! Source: {}, Fact: {}"
                    [ANat source_rows; ANat (length (fact_sales db))])])
  else
    (Ok counts, db,
     mkLogRecord INFO (mkMessage "Validating loaded data..." []) :: seen ++
     [mkLogRecord INFO (mkMessage "Load validation passed!" []);
      mkLogRecord INFO (mkMessage "Source rows  : {} = Fact rows: {}"
                    [ANat source_rows; ANat (length (fact_sales db))])]).
Proof.
  unfold load.validate_load, bind, log, raise, ret. cbn.
  change (load.count_of _ "fact_sales") with (length (fact_sales db)).
  destruct (decide (length (fact_sales db) ≠ source_rows)); reflexivity.
Qed.


(** ** Deduplication *)

Lemma filter_none {A} (P : A → Prop) `{∀ x, Decision (P x)} (l : list A) :
  (∀ x, x ∈ l → ¬ P x) → filter P l = [].
Proof.
  induction l as [|y l IH]; intros Hl; [done |].
  rewrite filter_cons_False; [| apply Hl; by left].
  apply IH. intros x Hx. apply Hl. by right.
Qed.

Section KeepFirst.
Context {A K : Type} `{EqDecision K} (key : A → K).

Lemma keep_first_elem seen l x :
  x ∈ keep_first key seen l → x ∈ l ∧ key x ∉ seen.
Proof.
  revert seen. induction l as [|y l IH]; intros seen; simpl.
  - intros Hx. by apply elem_of_nil in Hx.
  - destruct (decide (key y ∈ seen)) as [Hy | Hy].
    + intros Hx. apply IH in Hx as [? ?]. split; [by right | done].
    + intros Hx. apply elem_of_cons in Hx as [-> | Hx].
      * split; [by left | done].
      * apply IH in Hx as [? Hn]. split; [by right |].
        intros Hs. apply Hn. by right.
Qed.

Lemma keep_first_keys seen l k :
  k ∈ map key (keep_first key seen l) ↔ k ∈ map key l ∧ k ∉ seen.
Proof.
  revert seen. induction l as [|y l IH]; intros seen; simpl.
  - split; [intros Hk; by apply elem_of_nil in Hk | intros [Hk _]; done].
  - destruct (decide (key y ∈ seen)) as [Hy | Hy].
    + rewrite IH, elem_of_cons. split; [naive_solver |].
      intros [[-> | ?] ?]; [done | by split].
    + simpl. rewrite !elem_of_cons, IH, elem_of_cons.
      split; [naive_solver |].
      intros [[-> | ?] ?]; [by left |].
      destruct (decide (k = key y)) as [-> | ?]; [by left | right; naive_solver].
Qed.

Lemma keep_first_NoDup seen l : NoDup (map key (keep_first key seen l)).
Proof.
  revert seen. induction l as [|y l IH]; intros seen; simpl.
  - constructor.
  - destruct (decide (key y ∈ seen)); [apply IH |].
    simpl. constructor; [| apply IH].
    rewrite keep_first_keys. intros [_ Hn]. apply Hn. by left.
Qed.

Lemma keep_first_sublist seen l : sublist (keep_first key seen l) l.
Proof.
  revert seen. induction l as [|y l IH]; intros seen; simpl.
  - constructor.
  - destruct (decide (key y ∈ seen)); [apply sublist_cons | apply sublist_skip]; apply IH.
Qed.

Lemma keep_first_unchanged seen l :
  NoDup (map key l) → (∀ x, x ∈ l → key x ∉ seen) →
  keep_first key seen l = l.
Proof.
  revert seen. induction l as [|y l IH]; intros seen Hnd Hseen; simpl; [done |].
  simpl in Hnd. apply NoDup_cons in Hnd as [Hy Hnd].
  destruct (decide (key y ∈ seen)) as [Hin | _].
  - exfalso. eapply Hseen; [by left | done].
  - f_equal. apply IH; [done |].
    intros x Hx Hs. apply elem_of_cons in Hs as [Hs | Hs].
    + apply Hy. rewrite <- Hs. by apply list_elem_of_fmap_2.
    + eapply Hseen; [by right | done].
Qed.

Lemma keep_first_length_le seen l : (length (keep_first key seen l) ≤ length l)%nat.
Proof. apply sublist_length, keep_first_sublist. Qed.

(** A key that occurs in [l] is carried by exactly one kept row. *)
Lemma keep_first_once l x :
  x ∈ l →
  length (filter (λ y, key y = key x) (keep_first key [] l)) = 1%nat.
Proof.
  intros Hx.
  assert (key x ∈ map key (keep_first key [] l)) as Hk.
  { apply keep_first_keys. split; [by apply list_elem_of_fmap_2 | apply not_elem_of_nil]. }
  pose proof (keep_first_NoDup [] l) as Hnd.
  revert Hk Hnd. generalize (keep_first key [] l) as kept.
  induction kept as [|y kept IH]; simpl; intros Hk Hnd.
  - by apply elem_of_nil in Hk.
  - apply NoDup_cons in Hnd as [Hy Hnd].
    rewrite filter_cons. destruct (decide (key y = key x)) as [Heq | Hne].
    + simpl. f_equal. apply length_zero_iff_nil.
      apply filter_none. intros z Hz Hkz.
      apply Hy. rewrite Heq, <- Hkz. by apply list_elem_of_fmap_2.
    + apply IH; [| done]. apply elem_of_cons in Hk as [Hk | Hk]; [congruence | done].
Qed.

End KeepFirst.

(** ** Inversion of successful runs *)

Section Primitives.
Context {S : Type}.

Lemma result_bind {A B} (m : M S A) (k : A → M S B) s a s1 l1 :
  m s = (Ok a, s1, l1) → result (bind m k s) = result (k a s1).
Proof. unfold bind, result. intros ->. by destruct (k a s1) as [[??]?]. Qed.

Lemma store_bind {A B} (m : M S A) (k : A → M S B) s a s1 l1 :
  m s = (Ok a, s1, l1) → store (bind m k s) = store (k a s1).
Proof. unfold bind, store. intros ->. by destruct (k a s1) as [[??]?]. Qed.

Lemma logged_bind {A B} (m : M S A) (k : A → M S B) s a s1 l1 :
  m s = (Ok a, s1, l1) → logged (bind m k s) = l1 ++ logged (k a s1).
Proof. unfold bind, logged. intros ->. by destruct (k a s1) as [[??]?]. Qed.

Lemma ret_Ok {A} (a b : A) (s s1 : S) l :
  ret a s = (Ok b, s1, l) → b = a ∧ s1 = s ∧ l = [].
Proof. unfold ret. by intros [= <- <- <-]. Qed.

Lemma log_Ok lvl tmpl xs (s s1 : S) u l :
  log lvl tmpl xs s = (Ok u, s1, l) →
  s1 = s ∧ l = [mkLogRecord lvl (mkMessage tmpl xs)].
Proof. unfold log. by intros [= <- <-]. Qed.

Lemma get_Ok (s s1 a : S) l : get s = (Ok a, s1, l) → a = s ∧ s1 = s ∧ l = [].
Proof. unfold get. by intros [= <- <- <-]. Qed.

Lemma put_Ok (s0 s s1 : S) u l : put s0 s = (Ok u, s1, l) → s1 = s0 ∧ l = [].
Proof. unfold put. by intros [= <- <-]. Qed.

Lemma raise_Ok {A} e (s s1 : S) (a : A) l : raise e s = (Ok a, s1, l) → False.
Proof. unfold raise. by intros [=]. Qed.

Lemma getitem_Ok df c (s s1 : S) a l :
  getitem df c s = (Ok a, s1, l) →
  c ∈ columns df ∧ a = column df c ∧ s1 = s ∧ l = [].
Proof.
  unfold getitem. destruct (decide (c ∈ columns df)); [| by intros [=]].
  intros (-> & -> & ->)%ret_Ok. done.
Qed.

Lemma getitem_eval df c (s : S) :
  c ∈ columns df → getitem df c s = (Ok (column df c), s, []).
Proof. unfold getitem. intros Hc. by rewrite decide_True. Qed.

Lemma astype_Int64_Ok (x y : Series) (s s1 : S) l :
  pd.astype_Int64 x s = (Ok y, s1, l) →
  y = mkSeries Int64 (values x) ∧ s1 = s ∧ l = [].
Proof.
  unfold pd.astype_Int64. destruct (forallb _ _); [| by intros [=]].
  by intros (-> & -> & ->)%ret_Ok.
Qed.

End Primitives.

(** Splits a successful run of a sequence into the successful runs of its
    steps. *)
Ltac minv_bind H :=
  let a := fresh "a" in
  let s := fresh "s" in
  let l1 := fresh "l" in
  let l2 := fresh "l" in
  let H1 := fresh "Hstep" in
  let El := fresh "El" in
  apply bind_Ok in H as (a & s & l1 & l2 & H1 & H & El).

Ltac minv_prim :=
  match goal with
  | H : ret _ _ = (Ok _, _, _) |- _ => apply ret_Ok in H as (? & ? & ?)
  | H : log _ _ _ _ = (Ok _, _, _) |- _ => apply log_Ok in H as (? & ?)
  | H : get _ = (Ok _, _, _) |- _ => apply get_Ok in H as (? & ? & ?)
  | H : put _ _ = (Ok _, _, _) |- _ => apply put_Ok in H as (? & ?)
  | H : raise _ _ = (Ok _, _, _) |- _ => by apply raise_Ok in H
  | H : getitem _ _ _ = (Ok _, _, _) |- _ => apply getitem_Ok in H as (? & ? & ? & ?)
  | H : pd.astype_Int64 _ _ = (Ok _, _, _) |- _ => apply astype_Int64_Ok in H as (? & ? & ?)
  | H : (if ?b then _ else _) _ = (Ok _, _, _) |- _ => destruct b eqn:?
  end.

Ltac minv :=
  repeat first
    [ minv_prim
    | match goal with
      | H : bind _ _ _ = (Ok _, _, _) |- _ => minv_bind H
      end ];
  subst.

(** ** Column assignment, row by row *)

Lemma setitem_rows (df : DataFrame) (c : string) (d : DType) (f : Cell → Cell) :
  rows (setitem df c (mkSeries d (map f (values (column df c)))))
  = map (λ r, <[c := f (cell r c)]> r) (rows df).
Proof.
  unfold setitem, column. simpl. induction (rows df) as [|r l IH]; simpl; [done |].
  by rewrite IH.
Qed.

Lemma setitem_rows_of (df : DataFrame) (c : string) (s : Series) (f : Cell → Cell) :
  values s = map f (values (column df c)) →
  rows (setitem df c s) = map (λ r, <[c := f (cell r c)]> r) (rows df).
Proof.
  intros Hs. rewrite <- (setitem_rows df c (dtype s) f).
  unfold setitem. simpl. by rewrite Hs.
Qed.

Lemma setitem_len (df : DataFrame) (c : string) (s : Series) :
  length (values s) = len df → len (setitem df c s) = len df.
Proof.
  unfold len, setitem. simpl. intros Hl. rewrite length_zip_with. lia.
Qed.

Lemma column_length (df : DataFrame) (c : string) :
  length (values (column df c)) = len df.
Proof. unfold column, len. simpl. by rewrite length_map. Qed.

(** ** The stages before derivation *)

Section Prepare.
Context `{Pandas} {S : Type}.

Lemma clean_column_names_eval (df : DataFrame) (s : S) :
  transform.clean_column_names df s
  = (Ok (pd.rename transform.clean_name df), s,
     [mkLogRecord INFO (mkMessage "Cleaning column names..." []);
      mkLogRecord INFO (mkMessage "Columns standardized: {}"
                          [ATexts (columns (pd.rename transform.clean_name df))])]).
Proof. reflexivity. Qed.

Lemma remove_duplicates_Ok (df : DataFrame) (s : S) :
  ∃ l, transform.remove_duplicates df s = (Ok (drop_duplicates df), s, l).
Proof.
  unfold transform.remove_duplicates, bind, log, ret.
  destruct (0 <? len df - len (drop_duplicates df))%nat; eexists; reflexivity.
Qed.

(** What [fix_data_types] does to one row. *)
Definition fix_row (r : gmap string Cell) : gmap string Cell :=
  let r := <["order_date" := pd.to_datetime_cell (cell r "order_date")]> r in
  let r := <["ship_date" := pd.to_datetime_cell (cell r "ship_date")]> r in
  let r := <["sales" := pd.to_numeric_cell (cell r "sales")]> r in
  let r := <["profit" := pd.to_numeric_cell (cell r "profit")]> r in
  let r := <["discount" := pd.to_numeric_cell (cell r "discount")]> r in
  <["quantity" := pd.to_numeric_cell (cell r "quantity")]> r.

Lemma fix_data_types_rows (df df' : DataFrame) (s s1 : S) l :
  transform.fix_data_types df s = (Ok df', s1, l) →
  rows df' = map fix_row (rows df) ∧ s1 = s.
Proof.
  unfold transform.fix_data_types. intros Hrun. minv.
  all: split; [| done].
  all: rewrite (setitem_rows_of _ "quantity" _ pd.to_numeric_cell) by reflexivity.
  all: rewrite (setitem_rows_of _ "discount" _ pd.to_numeric_cell) by reflexivity.
  all: rewrite (setitem_rows_of _ "profit" _ pd.to_numeric_cell) by reflexivity.
  all: rewrite (setitem_rows_of _ "sales" _ pd.to_numeric_cell) by reflexivity.
  all: rewrite (setitem_rows_of _ "ship_date" _ pd.to_datetime_cell) by reflexivity.
  all: rewrite (setitem_rows_of _ "order_date" _ pd.to_datetime_cell) by reflexivity.
  all: rewrite !map_map; reflexivity.
Qed.

End Prepare.
(** ** Deduplication precedes derivation *)

Lemma drop_duplicates_unchanged (df : DataFrame) :
  NoDup (map (row_values (columns df)) (rows df)) → drop_duplicates df = df.
Proof.
  intros Hnd. unfold drop_duplicates.
  rewrite keep_first_unchanged; [by destruct df | done |].
  intros x _. apply not_elem_of_nil.
Qed.

Section Dedup.
Context `{Pandas} {S : Type}.

(** The stages of [transform_data] from the derivation stage on. *)
Definition derive_onwards (df : DataFrame) : M S DataFrame :=
  let* df := transform.add_derived_columns df in
  let* df := transform.handle_nulls df in
  let* _ := transform.validate_data df in
  let* _ := log INFO "Transformed data saved to: {}" [AText "transformed_sales.csv"] in
  let* _ := log INFO "Output rows : {}" [ANat (len df)] in
  let* _ := log INFO "Output cols : {}" [ANat (length (columns df))] in
  let* _ := log INFO "TRANSFORM PHASE COMPLETED" [] in
  ret df.


End Dedup.


(** ** Null reconciliation *)

Lemma null_count_zero (l : list Cell) :
  null_count l = 0%nat ↔ ∀ c, c ∈ l → c ≠ NA.
Proof.
  unfold null_count. induction l as [|x l IH]; simpl.
  - split; [intros _ c Hc; by apply elem_of_nil in Hc | done].
  - rewrite filter_cons. destruct (decide (isnull x = true)) as [Hx | Hx]; simpl.
    + split; [done |]. intros Hall. destruct x; try discriminate.
      exfalso. by apply (Hall NA); [left |].
    + rewrite IH. split.
      * intros Hall c Hc. apply elem_of_cons in Hc as [-> | Hc]; [| by apply Hall].
        intros ->. by apply Hx.
      * intros Hall c Hc. apply Hall. by right.
Qed.

Lemma total_nulls_zero (df : DataFrame) :
  transform.total_nulls df = 0%nat ↔
  ∀ c r, c ∈ columns df → r ∈ rows df → cell r c ≠ NA.
Proof.
  unfold transform.total_nulls. induction (columns df) as [|c cols IH]; simpl.
  - split; [intros _ c r Hc; by apply elem_of_nil in Hc | done].
  - rewrite Nat.eq_add_0, IH, null_count_zero. split.
    + intros [Hc Hcols] c' r Hc' Hr. apply elem_of_cons in Hc' as [-> | Hc'].
      * apply Hc. by apply (list_elem_of_fmap_2 (λ r, cell r c)).
      * by apply Hcols.
    + intros Hall. split.
      * intros v Hv. apply list_elem_of_fmap in Hv as (r & -> & Hr).
        apply Hall; [by left | done].
      * intros c' r Hc' Hr. apply Hall; [by right | done].
Qed.

(** The value that [handle_nulls] leaves in a cell of a column of dtype [d]. *)
Definition filled (d : DType) (v : Cell) : Cell :=
  if isnull v then
    if decide (d ∈ transform.numeric_dtypes) then Num 0 else Str "Unknown"
  else v.

Lemma filled_notnull d v : filled d v ≠ NA.
Proof. unfold filled. destruct v; simpl; try done. by destruct (decide _). Qed.

Lemma filled_idem d d' v : filled d' (filled d v) = filled d v.
Proof.
  unfold filled at 1. destruct (isnull (filled d v)) eqn:Hn; [| done].
  pose proof (filled_notnull d v). by destruct (filled d v).
Qed.

Lemma filled_id d v : v ≠ NA → filled d v = v.
Proof. unfold filled. by destruct v. Qed.

Lemma cell_insert (r : gmap string Cell) (c c' : string) (v : Cell) :
  cell (<[c := v]> r) c' = if decide (c = c') then v else cell r c'.
Proof.
  unfold cell. destruct (decide (c = c')) as [-> | Hne].
  - by rewrite lookup_total_insert_eq.
  - by rewrite lookup_total_insert_ne.
Qed.

Lemma Forall2_map_l {A B C} (f : A → B) (P : B → C → Prop) (l : list A) (k : list C) :
  Forall2 P (map f l) k → Forall2 (λ x, P (f x)) l k.
Proof. intros HF. by apply (Forall2_fmap_l f). Qed.

Section HandleNulls.
Context `{Pandas} {S : Type}.

(** How the loop of [handle_nulls] over [cols] relates a row before to the
    row after. *)
Definition filled_row (df : DataFrame) (cols : list string)
    (r r' : gmap string Cell) : Prop :=
  (∀ c, c ∈ cols → cell r' c = filled (dtypes df !!! c) (cell r c))
  ∧ (∀ c, c ∉ cols → r' !! c = r !! c).

Lemma fill_columns_cons (col : string) (cols : list string) (df : DataFrame) :
  transform.fill_columns (S:=S) (col :: cols) df =
  if (0 <? null_count (values (column df col)))%nat then
    if decide (dtype (column df col) ∈ transform.numeric_dtypes) then
      let* _ := log WARNING "Filled {} nulls in '{}' with 0"
                    [ANat (null_count (values (column df col))); AText col] in
      transform.fill_columns cols
        (setitem df col (pd.fillna (Num 0) (dtype (column df col)) (column df col)))
    else
      let* _ := log WARNING "Filled {} nulls in '{}' with 'Unknown'"
                    [ANat (null_count (values (column df col))); AText col] in
      transform.fill_columns cols
        (setitem df col (pd.fillna (Str "Unknown") object (column df col)))
  else transform.fill_columns cols df.
Proof. reflexivity. Qed.

Lemma fill_columns_spec (cols : list string) :
  ∀ (df : DataFrame) (s : S),
    cols ⊆ columns df →
    ∃ df' l, transform.fill_columns cols df s = (Ok df', s, l)
             ∧ columns df' = columns df
             ∧ Forall2 (filled_row df cols) (rows df) (rows df').
Proof.
  induction cols as [|col cols IH]; intros df s Hsub.
  - exists df, []. repeat split; [].
    apply Forall2_same_length_lookup_2; [done |].
    intros i r r' Hr Hr'. assert (r' = r) as -> by congruence.
    split; [intros c Hc; by apply elem_of_nil in Hc | done].
  - assert (col ∈ columns df) as Hcol by (apply Hsub; by left).
    assert (cols ⊆ columns df) as Hsub' by (intros c Hc; apply Hsub; by right).
    destruct (0 <? null_count (values (column df col)))%nat eqn:Hnulls.
    + (* the column holds a missing value and is filled *)
      set (v := if decide (dtype (column df col) ∈ transform.numeric_dtypes)
                then Num 0 else Str "Unknown").
      set (d := if decide (dtype (column df col) ∈ transform.numeric_dtypes)
                then dtype (column df col) else object).
      set (df1 := setitem df col (pd.fillna v d (column df col))).
      assert (columns df1 = columns df) as Hcols1.
      { unfold df1, setitem. cbn [columns]. by case_decide. }
      assert (rows df1 = map (λ r, <[col := filled (dtypes df !!! col) (cell r col)]> r)
                             (rows df)) as Hrows1.
      { unfold df1. rewrite (setitem_rows_of _ _ _ (λ c, if isnull c then v else c))
          by reflexivity.
        apply map_ext. intros r. unfold filled, v. simpl. done. }
      destruct (IH df1 s) as (df' & l & Hrun & Hcols & Hrel).
      { by rewrite Hcols1. }
      assert (∃ l', transform.fill_columns (col :: cols) df s = (Ok df', s, l')
                    ) as [l' Hrun'].
      { rewrite fill_columns_cons, Hnulls.
        destruct (decide (dtype (column df col) ∈ transform.numeric_dtypes)) as [Hd|Hd];
          unfold bind, log; fold df1 in Hrun |- *;
          [ replace (setitem df col (pd.fillna (Num 0) (dtype (column df col)) (column df col)))
              with df1 by (unfold df1, v, d; by repeat case_decide)
          | replace (setitem df col (pd.fillna (Str "Unknown") object (column df col)))
              with df1 by (unfold df1, v, d; by repeat case_decide) ];
          rewrite Hrun; eexists; reflexivity. }
      exists df', l'. split; [exact Hrun' |]. split; [congruence |].
      rewrite Hrows1 in Hrel. apply Forall2_map_l in Hrel.
      eapply Forall2_impl; [exact Hrel |].
      intros r r' [Hin Hout]. split.
      * intros c Hc. destruct (decide (c ∈ cols)) as [Hc' | Hc'].
        -- rewrite (Hin c Hc'), cell_insert.
           destruct (decide (col = c)) as [-> | Hne].
           ++ apply filled_idem.
           ++ f_equal. unfold df1, setitem. simpl. by rewrite lookup_total_insert_ne.
        -- apply elem_of_cons in Hc as [-> | Hc]; [| done].
           unfold cell at 1. unfold lookup_total, map_lookup_total.
           rewrite (Hout col Hc'), lookup_insert_eq. done.
      * intros c Hc. apply not_elem_of_cons in Hc as [Hne Hc].
        rewrite (Hout c Hc). by rewrite lookup_insert_ne.
    + (* no missing value in the column *)
      pose proof Hnulls as Hle. apply Nat.ltb_ge in Hle.
      assert (null_count (values (column df col)) = 0%nat) as Hzero by lia.
      rewrite null_count_zero in Hzero.
      destruct (IH df s Hsub') as (df' & l & Hrun & Hcols & Hrel).
      exists df', l. split; [by rewrite fill_columns_cons, Hnulls |]. split; [done |].
      apply Forall2_same_length_lookup_2; [by eapply Forall2_length |].
      intros i r r' Hr Hr'.
      destruct (Forall2_lookup_lr _ _ _ _ _ _ Hrel Hr Hr') as [Hin Hout].
      split.
      * intros c Hc. destruct (decide (c ∈ cols)) as [Hc' | Hc']; [by apply Hin |].
        apply elem_of_cons in Hc as [-> | Hc]; [| done].
        assert (cell r col ≠ NA) as Hnn.
        { apply Hzero. unfold column. simpl.
          apply (list_elem_of_fmap_2 (λ r, cell r col)). by eapply list_elem_of_lookup_2. }
        rewrite (filled_id _ _ Hnn). unfold cell, lookup_total, map_lookup_total.
        by rewrite (Hout col Hc').
      * intros c Hc. apply not_elem_of_cons in Hc as [_ Hc]. by apply Hout.
Qed.

End HandleNulls.
(** The dtypes that the specification calls numeric. *)
Definition is_numeric (d : DType) : bool :=
  bool_decide (d ∈ [float64; int64; Int64; int32]).

Section HandleNullsClaim.
Context `{Pandas} {S : Type}.

(** C5. After [handle_nulls] no column of the batch holds a missing value:
    a missing value of a numeric column has become 0, a missing value of any
    other column the text 'Unknown', and every other value is as before.
    ([int32] columns, like every NumPy integer column, hold no missing
    value to begin with.) *)
Theorem handle_nulls_fills (df : DataFrame) (s : S)
    (Hint : ∀ c r, c ∈ columns df → r ∈ rows df →
                   dtypes df !!! c = int32 → cell r c ≠ NA) :
  ∃ df',
    result (transform.handle_nulls df s) = Ok df'
    ∧ columns df' = columns df
    ∧ transform.total_nulls df' = 0%nat
    ∧ (∀ c r', c ∈ columns df' → r' ∈ rows df' → cell r' c ≠ NA)
    ∧ Forall2
        (λ r r', ∀ c, c ∈ columns df →
           cell r' c =
             if isnull (cell r c)
             then if is_numeric (dtypes df !!! c) then Num 0 else Str "Unknown"
             else cell r c)
        (rows df) (rows df').
Proof.
  assert (∀ c r, c ∈ columns df → r ∈ rows df →
            filled (dtypes df !!! c) (cell r c)
            = if isnull (cell r c)
              then if is_numeric (dtypes df !!! c) then Num 0 else Str "Unknown"
              else cell r c) as Hfilled.
  { intros c r Hc Hr. unfold filled. destruct (isnull (cell r c)) eqn:Hn; [| done].
    unfold is_numeric, transform.numeric_dtypes.
    destruct (dtypes df !!! c) eqn:Hd; try reflexivity.
    exfalso. apply (Hint c r Hc Hr Hd). by destruct (cell r c). }
  unfold transform.handle_nulls.
  rewrite (result_bind _ _ s () s _ eq_refl).
  destruct (transform.total_nulls df =? 0)%nat eqn:Hzero.
  - (* nothing to fill *)
    apply Nat.eqb_eq in Hzero. exists df.
    split; [reflexivity |]. split; [done |]. split; [done |].
    pose proof (proj1 (total_nulls_zero df) Hzero) as Hnn.
    split; [intros c r' Hc Hr'; by apply Hnn |].
    apply Forall2_same_length_lookup_2; [done |].
    intros i r r' Hr Hr' c Hc. assert (r' = r) as -> by congruence.
    assert (cell r c ≠ NA) as Hc'.
    { apply Hnn; [done |]. by eapply list_elem_of_lookup_2. }
    by destruct (cell r c).
  - destruct (fill_columns_spec (columns df) df s) as (df' & l & Hrun & Hcols & Hrel);
      [done |].
    rewrite (result_bind _ _ s _ s _ Hrun).
    assert (∀ c r', c ∈ columns df' → r' ∈ rows df' → cell r' c ≠ NA) as Hnn.
    { intros c r' Hc Hr'. rewrite Hcols in Hc.
      apply list_elem_of_lookup in Hr' as [i Hi].
      destruct (Forall2_lookup_r _ _ _ _ _ Hrel Hi) as (r & Hr & Hin & _).
      rewrite (Hin c Hc). apply filled_notnull. }
    exists df'. split; [reflexivity |]. split; [done |].
    split; [by apply total_nulls_zero |]. split; [done |].
    apply Forall2_same_length_lookup_2; [by eapply Forall2_length |].
    intros i r r' Hr Hr' c Hc.
    destruct (Forall2_lookup_lr _ _ _ _ _ _ Hrel Hr Hr') as [Hin _].
    rewrite (Hin c Hc). apply Hfilled; [done |]. by eapply list_elem_of_lookup_2.
Qed.

End HandleNullsClaim.
(** A batch with a missing order id, a missing sales amount and a missing
    ship date comes out with 'Unknown', 0 and 'Unknown' in their places. *)
Lemma handle_nulls_fills_sample :
  ∃ df', result (transform.handle_nulls Fixture.with_nulls ()) = Ok df'
         ∧ transform.total_nulls df' = 0%nat
         ∧ map (row_values (columns df')) (rows df')
           = [[Str "CA-2019-001"; Num 0; Str "Unknown"; Num 2019];
              [Str "Unknown"; Num 5; Stamp (mkTimestamp 2019 1 7); Num 2019]].
Proof.
  destruct (handle_nulls_fills Fixture.with_nulls ()) as (df' & Hres & _ & Hnone & _).
  - intros c r Hc Hr Hd.
    repeat (apply elem_of_cons in Hc as [-> | Hc]);
      [.. | by apply elem_of_nil in Hc]; try (vm_compute in Hd; discriminate Hd).
    repeat (apply elem_of_cons in Hr as [-> | Hr]);
      [.. | by apply elem_of_nil in Hr]; by vm_compute.
  - exists df'. split; [done |]. split; [done |].
    vm_compute in Hres. injection Hres as <-. vm_compute. reflexivity.
Defined.

(** ** Timestamps: order and keys *)

Lemma ltb_spec (a b : Timestamp) :
  Calendar.ltb a b = true ↔
  year a < year b ∨ (year a = year b ∧ (month a < month b ∨ (month a = month b ∧ day a < day b))).
Proof.
  unfold Calendar.ltb.
  rewrite !orb_true_iff, !andb_true_iff, !orb_true_iff, !andb_true_iff.
  rewrite !Z.ltb_lt, !Z.eqb_eq. tauto.
Qed.

Lemma ltb_irrefl (a : Timestamp) : Calendar.ltb a a = false.
Proof. apply not_true_iff_false. rewrite ltb_spec. lia. Qed.

Lemma ltb_trans (a b c : Timestamp) :
  Calendar.ltb a b = true → Calendar.ltb b c = true → Calendar.ltb a c = true.
Proof. rewrite !ltb_spec. lia. Qed.

Lemma ltb_total (a b : Timestamp) :
  Calendar.ltb a b = true ∨ a = b ∨ Calendar.ltb b a = true.
Proof.
  rewrite !ltb_spec. destruct a as [ya ma da], b as [yb mb db]. simpl.
  destruct (decide (ya = yb)) as [-> | ?]; [| lia].
  destruct (decide (ma = mb)) as [-> | ?]; [| lia].
  destruct (decide (da = db)) as [-> | ?]; [| lia].
  right; by left.
Qed.

Lemma leb_ltb (a b : Timestamp) :
  Calendar.leb a b = true → a ≠ b → Calendar.ltb a b = true.
Proof.
  unfold Calendar.leb. rewrite negb_true_iff. intros Hba Hne.
  destruct (ltb_total a b) as [? | [? | Hlt]]; [done | done | congruence].
Qed.

Lemma digit_value_digit (n : Z) : Calendar.digit_value (Calendar.digit n) = n mod 10.
Proof.
  unfold Calendar.digit_value, Calendar.digit.
  pose proof (Z.mod_pos_bound n 10 ltac:(lia)) as Hn.
  rewrite nat_ascii_embedding by lia. lia.
Qed.

(** [int(t.strftime('%Y%m%d'))] is the YYYYMMDD number of the date. *)
Lemma date_key_YYYYMMDD (t : Timestamp) :
  0 <= year t < 10000 → 0 <= month t < 100 → 0 <= day t < 100 →
  Calendar.date_key t = year t * 10000 + month t * 100 + day t.
Proof.
  intros Hy Hm Hd.
  unfold Calendar.date_key, Calendar.int, Calendar.strftime_Ymd, Calendar.pad4, Calendar.pad2.
  cbv [append Calendar.int_acc]. rewrite !digit_value_digit.
  Z.div_mod_to_equations. lia.
Qed.

Lemma valid_bounds (t : Timestamp) :
  Calendar.valid t → 0 <= year t < 10000 ∧ 0 <= month t < 100 ∧ 0 <= day t < 100.
Proof.
  unfold Calendar.valid, Calendar.days_in_month. intros (Hy & Hm & Hd).
  repeat split; try lia.
  destruct (month t =? 2); [destruct (Calendar.is_leap (year t)); lia |].
  destruct (_ || _); lia.
Qed.

Lemma date_key_valid (t : Timestamp) :
  Calendar.valid t → Calendar.date_key t = year t * 10000 + month t * 100 + day t.
Proof. intros (? & ? & ?)%valid_bounds. by apply date_key_YYYYMMDD. Qed.

(** ** [sorted] and [unique] *)

Lemma insort_elem (t u : Timestamp) (l : list Timestamp) :
  u ∈ load.insort t l ↔ u = t ∨ u ∈ l.
Proof.
  induction l as [|v l IH]; simpl.
  - rewrite list_elem_of_singleton. split; [by left | intros [? | Hn]; [done | by apply elem_of_nil in Hn]].
  - destruct (Calendar.leb t v); rewrite !elem_of_cons; [done |].
    rewrite IH. tauto.
Qed.

Lemma insort_length (t : Timestamp) (l : list Timestamp) :
  length (load.insort t l) = Datatypes.S (length l).
Proof. induction l as [|v l IH]; simpl; [done |]. destruct (Calendar.leb t v); simpl; lia. Qed.

Definition ascending : list Timestamp → Prop :=
  StronglySorted (λ a b, Calendar.ltb a b = true).

Lemma insort_ascending (t : Timestamp) (l : list Timestamp) :
  ascending l → t ∉ l → ascending (load.insort t l).
Proof.
  unfold ascending. induction l as [|v l IH]; simpl; intros Hs Ht.
  - repeat constructor.
  - apply StronglySorted_inv in Hs as [Hs Hv].
    apply not_elem_of_cons in Ht as [Hne Ht].
    destruct (Calendar.leb t v) eqn:Hle.
    + assert (Calendar.ltb t v = true) as Hlt by (by apply leb_ltb).
      constructor; [by constructor |].
      constructor; [done |].
      eapply Forall_impl; [exact Hv |]. intros w Hw. by eapply ltb_trans.
    + constructor; [by apply IH |].
      apply Forall_forall. intros w Hw.
      apply insort_elem in Hw as [-> | Hw].
      * unfold Calendar.leb in Hle. by apply negb_false_iff in Hle.
      * rewrite Forall_forall in Hv. by apply Hv.
Qed.

Lemma sorted_elem (u : Timestamp) (l : list Timestamp) : u ∈ load.sorted l ↔ u ∈ l.
Proof.
  unfold load.sorted. induction l as [|v l IH]; simpl; [done |].
  rewrite insort_elem, elem_of_cons, IH. done.
Qed.

Lemma sorted_length (l : list Timestamp) : length (load.sorted l) = length l.
Proof.
  unfold load.sorted. induction l as [|v l IH]; simpl; [done |].
  by rewrite insort_length, IH.
Qed.

Lemma sorted_ascending (l : list Timestamp) : NoDup l → ascending (load.sorted l).
Proof.
  unfold load.sorted. induction l as [|v l IH]; simpl; intros Hnd.
  - constructor.
  - apply NoDup_cons in Hnd as [Hv Hnd]. apply insort_ascending; [by apply IH |].
    fold (load.sorted l). by rewrite sorted_elem.
Qed.

Lemma ascending_NoDup (l : list Timestamp) : ascending l → NoDup l.
Proof.
  unfold ascending. induction 1 as [|a l Hs IH Ha]; constructor; [| done].
  intros Hin. rewrite Forall_forall in Ha.
  apply Ha in Hin. by rewrite ltb_irrefl in Hin.
Qed.

Lemma unique_NoDup (l : list Timestamp) : NoDup (load.unique l).
Proof.
  unfold load.unique. pose proof (keep_first_NoDup id [] l) as Hnd.
  by rewrite map_id in Hnd.
Qed.

Lemma unique_elem (t : Timestamp) (l : list Timestamp) : t ∈ load.unique l ↔ t ∈ l.
Proof.
  unfold load.unique. pose proof (keep_first_keys id [] l t) as Hk.
  rewrite !map_id in Hk. rewrite Hk. split; [by intros [? _] |].
  intros ?. split; [done | apply not_elem_of_nil].
Qed.

Lemma stamps_elem (t : Timestamp) (l : list Cell) : t ∈ load.stamps l ↔ Stamp t ∈ l.
Proof.
  unfold load.stamps. rewrite list_elem_of_omap. split.
  - intros (c & Hc & Ht). destruct c; try discriminate. by injection Ht as ->.
  - intros Hc. by exists (Stamp t).
Qed.
(** ** The date dimension *)

Lemma datetime_column_Ok {S} (df : DataFrame) (c : string) (s s1 : S) a l :
  load.datetime_column df c s = (Ok a, s1, l) →
  c ∈ columns df ∧ dtypes df !!! c = datetime64
  ∧ a = values (column df c) ∧ s1 = s ∧ l = [].
Proof.
  unfold load.datetime_column. intros Hrun. minv.
  by repeat split.
Qed.

Ltac linv :=
  repeat first
    [ match goal with
      | H : load.datetime_column _ _ _ = (Ok _, _, _) |- _ =>
          apply datetime_column_Ok in H as (? & ? & ? & ? & ?)
      end
    | minv_prim
    | match goal with
      | H : bind _ _ _ = (Ok _, _, _) |- _ => minv_bind H
      end ];
  subst.

(** The calendar date that a row of [dim_date] stands for. *)
Definition row_date (r : DimDate.row) : Timestamp :=
  mkTimestamp (DimDate.year r) (DimDate.month r) (DimDate.day r).

Lemma row_date_date_row (t : Timestamp) : row_date (load.date_row t) = t.
Proof. by destruct t. Qed.


(** ** Table population *)

Section Autoincrement.
Context {A B : Type} (mk : Z → A → B) (key : B → Z).
Hypothesis key_mk : ∀ k x, key (mk k x) = k.

Lemma autoincrement_length next (l : list A) :
  length (sql.autoincrement mk next l) = length l.
Proof. revert next. induction l as [|x l IH]; intros next; simpl; [done | by rewrite IH]. Qed.

Lemma autoincrement_keys next (l : list A) :
  map key (sql.autoincrement mk next l) = seqZ next (Z.of_nat (length l)).
Proof.
  revert next. induction l as [|x l IH]; intros next; [done |].
  cbn [sql.autoincrement map]. rewrite key_mk, IH.
  replace (Z.of_nat (length (x :: l))) with (Z.succ (Z.of_nat (length l)))
    by (cbn [length]; lia).
  rewrite (seqZ_cons next) by lia. rewrite Z.pred_succ. do 2 f_equal; lia.
Qed.

Lemma autoincrement_elem next (l : list A) (y : B) :
  y ∈ sql.autoincrement mk next l → ∃ x, x ∈ l ∧ y = mk (key y) x.
Proof.
  revert next. induction l as [|x l IH]; intros next; simpl.
  - intros Hy. by apply elem_of_nil in Hy.
  - intros Hy. apply elem_of_cons in Hy as [-> | Hy].
    + exists x. rewrite key_mk. split; [by left | done].
    + destruct (IH _ Hy) as (x' & Hx' & Heq). exists x'. split; [by right | done].
Qed.

Lemma autoincrement_map {C} (f : B → C) (g : A → C) next (l : list A) :
  (∀ k x, f (mk k x) = g x) →
  map f (sql.autoincrement mk next l) = map g l.
Proof.
  intros Hfg. revert next. induction l as [|x l IH]; intros next; simpl; [done |].
  by rewrite Hfg, IH.
Qed.

Lemma autoincrement_NoDup next (l : list A) :
  NoDup (map key (sql.autoincrement mk next l)).
Proof. rewrite autoincrement_keys. apply NoDup_seqZ. Qed.

End Autoincrement.

(** A key that is unique in a table selects exactly one of its rows. *)
Lemma unique_key_once {A K} `{EqDecision K} (key : A → K) (l : list A) (x : A) :
  NoDup (map key l) → x ∈ l →
  length (filter (λ y, key y = key x) l) = 1%nat.
Proof.
  induction l as [|y l IH]; simpl; intros Hnd Hx.
  - by apply elem_of_nil in Hx.
  - apply NoDup_cons in Hnd as [Hy Hnd].
    rewrite filter_cons. destruct (decide (key y = key x)) as [Heq | Hne].
    + simpl. f_equal. apply length_zero_iff_nil, filter_none.
      intros z Hz Hkz. apply Hy. rewrite Heq, <- Hkz.
      by apply (list_elem_of_fmap_2 key).
    + apply IH; [done |]. apply elem_of_cons in Hx as [-> | Hx]; [done | done].
Qed.

Lemma unique_not_null_spec (old new : list Cell) :
  sql.unique_not_null old new = true →
  NoDup (old ++ new) ∧ ∀ c, c ∈ new → c ≠ NA.
Proof.
  unfold sql.unique_not_null. intros [Hnn Hnd]%andb_prop.
  apply bool_decide_eq_true in Hnd. split; [done |].
  intros c Hc ->. rewrite forallb_forall in Hnn.
  apply list_elem_of_In, Hnn in Hc. discriminate Hc.
Qed.

Lemma getitems_Ok {S} (df df' : DataFrame) (cols : list string) (s s1 : S) l :
  load.getitems df cols s = (Ok df', s1, l) →
  rows df' = map (load.project cols) (rows df) ∧ columns df' = cols
  ∧ (∀ c, c ∈ cols → c ∈ columns df) ∧ s1 = s ∧ l = [].
Proof.
  unfold load.getitems.
  destruct (filter (λ c, c ∉ columns df) cols) as [|c0 rest] eqn:Hmissing;
    [| by intros [=]].
  intros (-> & -> & ->)%ret_Ok. repeat split; try done.
  intros c Hc. destruct (decide (c ∈ columns df)) as [? | Hn]; [done |].
  exfalso. assert (c ∈ filter (λ c, c ∉ columns df) cols) as Hf
    by (by apply list_elem_of_filter).
  rewrite Hmissing in Hf. by apply elem_of_nil in Hf.
Qed.

Lemma dt_Ok {S} (x : Series) (s s1 : S) a l :
  pd.dt x s = (Ok a, s1, l) → dtype x = datetime64 ∧ a = values x ∧ s1 = s ∧ l = [].
Proof.
  unfold pd.dt. destruct (decide (dtype x = datetime64)); [| by intros [=]].
  by intros (-> & -> & ->)%ret_Ok.
Qed.

Ltac loadinv :=
  repeat first
    [ match goal with
      | H : load.datetime_column _ _ _ = (Ok _, _, _) |- _ =>
          apply datetime_column_Ok in H as (? & ? & ? & ? & ?)
      | H : load.getitems _ _ _ = (Ok _, _, _) |- _ =>
          apply getitems_Ok in H as (? & ? & ? & ? & ?)
      | H : pd.dt _ _ = (Ok _, _, _) |- _ =>
          apply dt_Ok in H as (? & ? & ? & ?)
      end
    | minv_prim
    | match goal with
      | H : bind _ _ _ = (Ok _, _, _) |- _ => minv_bind H
      end ];
  subst.

Lemma project_cell (cols : list string) (r : gmap string Cell) (c : string) :
  c ∈ cols → cell (load.project cols r) c = cell r c.
Proof.
  unfold load.project. intros Hc. induction cols as [|c0 cols IH]; simpl.
  - by apply elem_of_nil in Hc.
  - rewrite cell_insert. destruct (decide (c0 = c)) as [-> | Hne]; [done |].
    apply IH. apply elem_of_cons in Hc as [-> | Hc]; [done | done].
Qed.

Lemma load_dim_customer_Ok (df : DataFrame) (db db' : Database) (n : nat) l :
  load.load_dim_customer df db = (Ok n, db', l) →
  let kept := keep_first (λ r, cell r "customer_id") []
                (map (load.project load.customer_cols) (rows df)) in
  dim_customer db' =
    dim_customer db
    ++ sql.autoincrement (load.customer_row df)
         (sql.last_key (map DimCustomer.customer_key (dim_customer db)) + 1) kept
  ∧ NoDup (map DimCustomer.customer_id (dim_customer db'))
  ∧ staging_raw_sales db' = staging_raw_sales db ∧ dim_date db' = dim_date db
  ∧ dim_product db' = dim_product db ∧ dim_shipping db' = dim_shipping db
  ∧ fact_sales db' = fact_sales db.
Proof.
  unfold load.load_dim_customer. intros Hrun. loadinv.
  match goal with Hrows : rows _ = map _ _ |- _ => rewrite Hrows in * end.
  cbn [dim_customer staging_raw_sales dim_date dim_product dim_shipping fact_sales].
  repeat split; try done.
  apply unique_not_null_spec in Heqb as [Hnd _].
  rewrite map_app. erewrite (autoincrement_map _ DimCustomer.customer_id); [exact Hnd |].
  done.
Qed.
Lemma load_dim_product_Ok (df : DataFrame) (db db' : Database) (n : nat) l :
  load.load_dim_product df db = (Ok n, db', l) →
  let kept := keep_first (λ r, cell r "product_id") []
                (map (load.project load.product_cols) (rows df)) in
  dim_product db' =
    dim_product db
    ++ sql.autoincrement load.product_row
         (sql.last_key (map DimProduct.product_key (dim_product db)) + 1) kept
  ∧ NoDup (map DimProduct.product_id (dim_product db'))
  ∧ staging_raw_sales db' = staging_raw_sales db ∧ dim_date db' = dim_date db
  ∧ dim_customer db' = dim_customer db ∧ dim_shipping db' = dim_shipping db
  ∧ fact_sales db' = fact_sales db.
Proof.
  unfold load.load_dim_product. intros Hrun. loadinv.
  match goal with Hrows : rows _ = map _ _ |- _ => rewrite Hrows in * end.
  cbn [dim_customer staging_raw_sales dim_date dim_product dim_shipping fact_sales].
  repeat split; try done.
  apply unique_not_null_spec in Heqb as [Hnd _].
  rewrite map_app. erewrite (autoincrement_map _ DimProduct.product_id); [exact Hnd |].
  done.
Qed.

Lemma load_dim_shipping_Ok (df : DataFrame) (db db' : Database) (n : nat) l :
  load.load_dim_shipping df db = (Ok n, db', l) →
  let kept := keep_first (row_values ["ship_mode"%string]) []
                (map (load.project ["ship_mode"%string]) (rows df)) in
  dim_shipping db' =
    dim_shipping db
    ++ sql.autoincrement load.shipping_row
         (sql.last_key (map DimShipping.shipping_key (dim_shipping db)) + 1) kept
  ∧ NoDup (map DimShipping.ship_mode (dim_shipping db'))
  ∧ staging_raw_sales db' = staging_raw_sales db ∧ dim_date db' = dim_date db
  ∧ dim_customer db' = dim_customer db ∧ dim_product db' = dim_product db
  ∧ fact_sales db' = fact_sales db.
Proof.
  unfold load.load_dim_shipping. intros Hrun. loadinv.
  match goal with Hrows : rows _ = map _ _ |- _ => rewrite Hrows in * end.
  cbn [dim_customer staging_raw_sales dim_date dim_product dim_shipping fact_sales].
  repeat split; try done.
  apply unique_not_null_spec in Heqb as [Hnd _].
  rewrite map_app. erewrite (autoincrement_map _ DimShipping.ship_mode); [exact Hnd |].
  done.
Qed.

Lemma load_staging_Ok (df : DataFrame) (db db' : Database) (n : nat) l :
  load.load_staging df db = (Ok n, db', l) →
  dim_date db' = dim_date db ∧ dim_customer db' = dim_customer db
  ∧ dim_product db' = dim_product db ∧ dim_shipping db' = dim_shipping db
  ∧ fact_sales db' = fact_sales db.
Proof.
  unfold load.load_staging, load.modify. intros Hrun. loadinv. done.
Qed.

Lemma create_schema_eval (db : Database) :
  ∃ l, load.create_schema db = (Ok (), empty_database, l).
Proof. eexists. reflexivity. Qed.

Lemma load_dim_date_Ok (df : DataFrame) (db db' : Database) (n : nat) l :
  load.load_dim_date df db = (Ok n, db', l) →
  let dates := load.sorted
         (load.unique (load.stamps (values (column df "order_date"))
                       ++ load.stamps (values (column df "ship_date")))) in
  dim_date db' = dim_date db ++ map load.date_row dates
  ∧ n = length dates
  ∧ NoDup (map DimDate.date_key (dim_date db'))
  ∧ staging_raw_sales db' = staging_raw_sales db
  ∧ dim_customer db' = dim_customer db ∧ dim_product db' = dim_product db
  ∧ dim_shipping db' = dim_shipping db ∧ fact_sales db' = fact_sales db.
Proof.
  unfold load.load_dim_date. intros Hrun. loadinv.
  apply bool_decide_eq_true in Heqb.
  cbn [dim_customer staging_raw_sales dim_date dim_product dim_shipping fact_sales].
  repeat split; try done. by rewrite length_map.
Qed.

(** ** Left joins against a dimension *)

Lemma matches_at_most_one (right : list (Cell * Z)) (v : Cell) :
  NoDup (map fst right) → (length (load.matches right v) ≤ 1)%nat.
Proof.
  unfold load.matches. induction right as [|p right IH]; simpl; intros Hnd; [lia |].
  apply NoDup_cons in Hnd as [Hp Hnd].
  rewrite filter_cons. destruct (decide (p.1 = v)) as [Heq | Hne]; [| by apply IH].
  simpl. rewrite (filter_none (λ p, p.1 = v) right); [simpl; lia |].
  intros q Hq Hqv. apply Hp. rewrite Heq, <- Hqv. by apply (list_elem_of_fmap_2 fst).
Qed.

Lemma merge_row_length (right : list (Cell * Z)) (on key : string)
    (r : gmap string Cell) :
  NoDup (map fst right) → length (load.merge_row right on key r) = 1%nat.
Proof.
  intros Hnd. unfold load.merge_row.
  pose proof (matches_at_most_one right (cell r on) Hnd) as Hle.
  destruct (load.matches right (cell r on)) as [|p ms]; [done |].
  simpl in *. rewrite length_map. lia.
Qed.

Lemma merge_row_elem (right : list (Cell * Z)) (on key : string)
    (r r' : gmap string Cell) :
  r' ∈ load.merge_row right on key r →
  r' = <[key := NA]> r
  ∨ ∃ p, p ∈ right ∧ p.1 = cell r on ∧ r' = <[key := Num (inject_Z p.2)]> r.
Proof.
  unfold load.merge_row.
  destruct (load.matches right (cell r on)) as [|p ms] eqn:Hm.
  - intros ->%list_elem_of_singleton. by left.
  - intros Hr'. right.
    apply (list_elem_of_fmap (λ p, <[key := Num (inject_Z p.2)]> r)) in Hr'
      as (q & -> & Hq).
    rewrite <- Hm in Hq. unfold load.matches in Hq.
    apply list_elem_of_filter in Hq as [Hq1 Hq2]. by exists q.
Qed.

Lemma flat_map_length_one {A B} (f : A → list B) (l : list A) :
  (∀ x, length (f x) = 1%nat) → length (flat_map f l) = length l.
Proof.
  intros Hf. induction l as [|x l IH]; simpl; [done |].
  rewrite length_app, Hf, IH. done.
Qed.

Lemma elem_of_flat_map {A B} (f : A → list B) (l : list A) (y : B) :
  y ∈ flat_map f l ↔ ∃ x, x ∈ l ∧ y ∈ f x.
Proof.
  induction l as [|x l IH]; simpl.
  - split; [intros Hy; by apply elem_of_nil in Hy | intros (x & Hx & _); by apply elem_of_nil in Hx].
  - rewrite elem_of_app, IH. split.
    + intros [Hy | (x' & Hx' & Hy)]; [exists x; split; [by left | done] |].
      exists x'. split; [by right | done].
    + intros (x' & Hx' & Hy). apply elem_of_cons in Hx' as [-> | Hx']; [by left |].
      right. by exists x'.
Qed.

Lemma string_length_append (a b : string) :
  String.length (a +:+ b) = (String.length a + String.length b)%nat.
Proof.
  induction a as [|c a IH]; [done |].
  change (String c a +:+ b) with (String c (a +:+ b)). simpl. by rewrite IH.
Qed.

Lemma append_neq (a b : string) : b ≠ ""%string → a +:+ b ≠ a.
Proof.
  intros Hb Heq. assert (String.length (a +:+ b) = String.length a) as Hl by (by rewrite Heq).
  rewrite string_length_append in Hl. destruct b; [done | simpl in Hl; lia].
Qed.

Lemma rename_len (f : string → string) (df : DataFrame) : len (pd.rename f df) = len df.
Proof. unfold len, pd.rename. simpl. by rewrite length_map. Qed.

Lemma merge_left_Ok {S} (left fact : DataFrame) (right : list (Cell * Z))
    (on key : string) (s s1 : S) l :
  load.merge_left left right on key s = (Ok fact, s1, l) →
  s1 = s ∧ l = []
  ∧ (key ∉ columns left →
     columns fact = columns left ++ [key]
     ∧ rows fact = flat_map (load.merge_row right on key) (rows left))
  ∧ (key ∈ columns left → key ∉ columns fact)
  ∧ (NoDup (map fst right) → len fact = len left).
Proof.
  unfold load.merge_left. intros Hrun. minv.
  split; [done |]. split; [done |]. split; [| split].
  - intros Hfresh. by rewrite !bool_decide_eq_false_2.
  - intros Hclash. rewrite !bool_decide_eq_true_2 by done. cbn [columns].
    unfold load.rename_column, pd.rename. cbn [columns].
    rewrite not_elem_of_app. split.
    + intros (c & Hc & _)%list_elem_of_fmap.
      destruct (decide (c = key)) as [_ | Hne]; [| done].
      symmetry in Hc. by apply append_neq in Hc.
    + intros Hkey%list_elem_of_singleton. symmetry in Hkey. by apply append_neq in Hkey.
  - intros Hnd. unfold len. cbn [rows].
    rewrite flat_map_length_one by (intros r; by apply merge_row_length).
    destruct (bool_decide (key ∈ columns left)); [| done].
    apply rename_len.
Qed.

(** ** The fact table *)

Definition is_stamp (c : Cell) : bool :=
  match c with Stamp _ => true | _ => false end.

Lemma date_keys_Ok {S} (cells : list Cell) (keys : Series) (s s1 : S) l :
  load.date_keys cells s = (Ok keys, s1, l) →
  forallb is_stamp cells = true
  ∧ keys = mkSeries int64
             (map (pd.on_stamp (λ t, Num (inject_Z (Calendar.date_key t)))) cells)
  ∧ s1 = s ∧ l = [].
Proof.
  unfold load.date_keys. fold is_stamp.
  destruct (forallb is_stamp cells); [| intros Hr; by apply raise_Ok in Hr].
  intros (-> & -> & ->)%ret_Ok. repeat split.
Qed.

Lemma is_stamp_Stamp (c : Cell) : is_stamp c = true → ∃ t, c = Stamp t.
Proof. destruct c; try discriminate. eauto. Qed.

(** The date key that [load_fact_sales] writes next to a date. *)
Definition key_cell : Cell → Cell :=
  pd.on_stamp (λ t, Num (inject_Z (Calendar.date_key t))).

(** [df] after the two assignments of date keys in [load_fact_sales]. *)
Definition with_date_keys (r : gmap string Cell) : gmap string Cell :=
  let r := <["order_date_key" := key_cell (cell r "order_date")]> r in
  <["ship_date_key" := key_cell (cell r "ship_date")]> r.

(** Membership of a label in a list of labels written out. *)
Ltac in_labels :=
  unfold load.fact_cols, load.fact_not_null;
  solve [repeat first [apply list_elem_of_here | apply list_elem_of_further]].

(** Reads a cell through assignments to other labels. *)
Ltac cell_simpl :=
  repeat (rewrite cell_insert;
          match goal with
          | |- context [decide (?a = ?b)] =>
              let Hlabel := fresh "Hlabel" in
              destruct (decide (a = b)) as [Hlabel | Hlabel];
              [ try discriminate Hlabel | try (exfalso; by apply Hlabel) ];
              clear Hlabel
          end).

Lemma setitem_rows_from (df : DataFrame) (c from : string) (s : Series) (f : Cell → Cell) :
  values s = map f (values (column df from)) →
  rows (setitem df c s) = map (λ r, <[c := f (cell r from)]> r) (rows df).
Proof.
  intros Hs. unfold setitem, column in *. cbn [rows values] in *. rewrite Hs.
  clear Hs. generalize (rows df). intros rs.
  induction rs as [|r rs IH]; [done |]. cbn [map zip_with]. by rewrite IH.
Qed.

Tactic Notation "bind_as" hyp(H) ident(x) ident(Hx) :=
  let s := fresh "s" in
  let l1 := fresh "l" in
  let l2 := fresh "l" in
  let El := fresh "El" in
  apply bind_Ok in H as (x & s & l1 & l2 & Hx & H & El).

Lemma load_fact_sales_Ok (df df' : DataFrame) (db db' : Database) (n : nat) l :
  load.load_fact_sales df db = (Ok (n, df'), db', l) →
  len df' = len df
  ∧ staging_raw_sales db' = staging_raw_sales db
  ∧ dim_date db' = dim_date db ∧ dim_customer db' = dim_customer db
  ∧ dim_product db' = dim_product db ∧ dim_shipping db' = dim_shipping db
  ∧ ∃ facts : list (gmap string Cell),
      fact_sales db' =
        fact_sales db
        ++ sql.autoincrement load.fact_row
             (sql.last_key (map FactSales.sales_key (fact_sales db)) + 1) facts
      ∧ n = length facts
      ∧ (NoDup (map DimCustomer.customer_id (dim_customer db)) →
         NoDup (map DimProduct.product_id (dim_product db)) →
         NoDup (map DimShipping.ship_mode (dim_shipping db)) →
         length facts = len df)
      ∧ ∀ f, f ∈ facts →
          ∃ r ordered shipped dc dp ds,
            r ∈ rows df
            ∧ cell r "order_date" = Stamp ordered
            ∧ cell r "ship_date" = Stamp shipped
            ∧ cell f "order_date_key" = Num (inject_Z (Calendar.date_key ordered))
            ∧ cell f "ship_date_key" = Num (inject_Z (Calendar.date_key shipped))
            ∧ dc ∈ dim_customer db
            ∧ DimCustomer.customer_id dc = cell r "customer_id"
            ∧ cell f "customer_key" = Num (inject_Z (DimCustomer.customer_key dc))
            ∧ dp ∈ dim_product db
            ∧ DimProduct.product_id dp = cell r "product_id"
            ∧ cell f "product_key" = Num (inject_Z (DimProduct.product_key dp))
            ∧ ds ∈ dim_shipping db
            ∧ DimShipping.ship_mode ds = cell r "ship_mode"
            ∧ cell f "shipping_key" = Num (inject_Z (DimShipping.shipping_key ds))
            ∧ cell f "order_id" = cell r "order_id"
            ∧ cell f "quantity" = cell r "quantity"
            ∧ cell f "sales" = cell r "sales"
            ∧ cell f "discount" = cell r "discount"
            ∧ cell f "profit" = cell r "profit".
Proof.
  unfold load.load_fact_sales. intros Hrun.
  bind_as Hrun u0 Hlog. apply log_Ok in Hlog as (-> & ->).
  bind_as Hrun db0 Hget. apply get_Ok in Hget as (-> & -> & ->).
  bind_as Hrun od Hod. apply datetime_column_Ok in Hod as (Hod & Hodt & -> & -> & ->).
  bind_as Hrun ok Hok. apply date_keys_Ok in Hok as (Hostamps & -> & -> & ->).
  bind_as Hrun sd Hsd. apply datetime_column_Ok in Hsd as (Hsd & Hsdt & -> & -> & ->).
  bind_as Hrun sk Hsk. apply date_keys_Ok in Hsk as (Hsstamps & -> & -> & ->).
  bind_as Hrun fact1 Hm1.
  bind_as Hrun fact2 Hm2.
  bind_as Hrun fact3 Hm3.
  bind_as Hrun fact_df Hproj. apply getitems_Ok in Hproj as (Hfrows & _ & Hfcols & -> & ->).
  bind_as Hrun db1 Hget. apply get_Ok in Hget as (-> & -> & _).
  destruct (forallb _ (rows fact_df)) eqn:Hnotnull; [| by apply raise_Ok in Hrun].
  bind_as Hrun u1 Hput. apply put_Ok in Hput as (-> & _).
  bind_as Hrun u2 Hlog. apply log_Ok in Hlog as (-> & _).
  apply ret_Ok in Hrun as (Hret & -> & _). injection Hret as -> ->.
  set (df1 := setitem df "order_date_key" _) in *.
  set (df2 := setitem df1 "ship_date_key" _) in *.
  (* the frame handed back *)
  assert (rows df1 = map (λ r, <["order_date_key" := key_cell (cell r "order_date")]> r)
                         (rows df)) as Hrows1.
  { unfold df1. by rewrite (setitem_rows_from _ _ "order_date" _ key_cell). }
  assert (rows df2 = map with_date_keys (rows df)) as Hrows2.
  { unfold df2. rewrite (setitem_rows_from _ _ "ship_date" _ key_cell) by reflexivity.
    rewrite Hrows1, map_map. done. }
  assert (len df2 = len df) as Hlen2.
  { unfold len. by rewrite Hrows2, length_map. }
  (* no label of the frame collides with a surrogate key *)
  apply merge_left_Ok in Hm1 as (-> & -> & Hfresh1 & Hclash1 & Hlen1).
  apply merge_left_Ok in Hm2 as (-> & -> & Hfresh2 & Hclash2 & Hlen2').
  apply merge_left_Ok in Hm3 as (-> & -> & Hfresh3 & Hclash3 & Hlen3).
  assert ("shipping_key" ∉ columns fact2) as Hno3.
  { intros Hin. apply (Hclash3 Hin), Hfcols. in_labels. }
  destruct (Hfresh3 Hno3) as [Hcols3 Hrows3].
  assert ("product_key" ∉ columns fact1) as Hno2.
  { intros Hin. apply (Hclash2 Hin).
    assert ("product_key" ∈ columns fact3) as Hp by (apply Hfcols; in_labels).
    rewrite Hcols3, elem_of_app, list_elem_of_singleton in Hp.
    destruct Hp as [Hp | Hp]; [done | discriminate Hp]. }
  destruct (Hfresh2 Hno2) as [Hcols2 Hrows2'].
  assert ("customer_key" ∉ columns df2) as Hno1.
  { intros Hin. apply (Hclash1 Hin).
    assert ("customer_key" ∈ columns fact3) as Hp by (apply Hfcols; in_labels).
    rewrite Hcols3, Hcols2, !elem_of_app, !list_elem_of_singleton in Hp.
    destruct Hp as [[Hp | Hp] | Hp]; [done | discriminate Hp | discriminate Hp]. }
  destruct (Hfresh1 Hno1) as [Hcols1 Hrows1'].
  cbn [dim_customer staging_raw_sales dim_date dim_product dim_shipping fact_sales].
  repeat (split; [done |]).
  exists (rows fact_df). split; [done |]. split; [done |]. split.
  - intros Hnc Hnp Hns. rewrite Hfrows, length_map.
    change (length (rows fact3)) with (len fact3).
    rewrite Hlen3, Hlen2', Hlen1, Hlen2; [done | | |].
    + by rewrite map_map.
    + by rewrite map_map.
    + by rewrite map_map.
  - intros f Hf. rewrite Hfrows in Hf.
    apply (list_elem_of_fmap (load.project load.fact_cols)) in Hf as (r3 & -> & Hr3).
    rewrite forallb_forall in Hnotnull.
    assert (∀ c, c ∈ load.fact_not_null → cell (load.project load.fact_cols r3) c ≠ NA)
      as Hnn.
    { intros c Hc Hna.
      assert (In (load.project load.fact_cols r3) (rows fact_df)) as Hin.
      { apply list_elem_of_In. rewrite Hfrows.
        by apply (list_elem_of_fmap_2 (load.project load.fact_cols)). }
      apply Hnotnull in Hin. rewrite forallb_forall in Hin.
      apply list_elem_of_In, Hin in Hc. unfold notnull in Hc. by rewrite Hna in Hc. }
    rewrite Hrows3 in Hr3. apply elem_of_flat_map in Hr3 as (r2 & Hr2 & Hr3).
    rewrite Hrows2' in Hr2. apply elem_of_flat_map in Hr2 as (r1 & Hr1 & Hr2).
    rewrite Hrows1' in Hr1. apply elem_of_flat_map in Hr1 as (r0 & Hr0 & Hr1).
    rewrite Hrows2 in Hr0.
    apply (list_elem_of_fmap with_date_keys) in Hr0 as (r & -> & Hr).
    (* the two dates of the record *)
    rewrite forallb_forall in Hostamps, Hsstamps.
    assert (∃ t, cell r "order_date" = Stamp t) as [ordered Hordered].
    { apply is_stamp_Stamp, Hostamps, list_elem_of_In.
      by apply (list_elem_of_fmap_2 (λ r, cell r "order_date")). }
    assert (∃ t, cell r "ship_date" = Stamp t) as [shipped Hshipped].
    { apply is_stamp_Stamp. 
      assert (In (cell (<["order_date_key" := key_cell (cell r "order_date")]> r) "ship_date")
                 (values (column df1 "ship_date"))) as Hin.
      { apply list_elem_of_In. unfold column. cbn [values]. rewrite Hrows1, map_map.
        by apply (list_elem_of_fmap_2
                    (λ r, cell (<["order_date_key" := key_cell (cell r "order_date")]> r)
                               "ship_date")). }
      apply Hsstamps in Hin. revert Hin. by cell_simpl. }
    (* the three joins *)
    apply merge_row_elem in Hr1. apply merge_row_elem in Hr2. apply merge_row_elem in Hr3.
    assert (cell (load.project load.fact_cols r3) "customer_key" ≠ NA) as Hck
      by (apply Hnn; in_labels).
    assert (cell (load.project load.fact_cols r3) "product_key" ≠ NA) as Hpk
      by (apply Hnn; in_labels).
    assert (cell (load.project load.fact_cols r3) "shipping_key" ≠ NA) as Hsk
      by (apply Hnn; in_labels).
    rewrite !project_cell by in_labels.
    rewrite project_cell in Hck, Hpk, Hsk by in_labels.
    destruct Hr3 as [-> | (p3 & Hp3 & Hon3 & ->)];
      [exfalso; revert Hsk; by cell_simpl |].
    destruct Hr2 as [-> | (p2 & Hp2 & Hon2 & ->)];
      [exfalso; revert Hpk; by cell_simpl |].
    destruct Hr1 as [-> | (p1 & Hp1 & Hon1 & ->)];
      [exfalso; revert Hck; by cell_simpl |].
    apply (list_elem_of_fmap
             (λ r, (DimCustomer.customer_id r, DimCustomer.customer_key r))) in Hp1
      as (dc & -> & Hdc).
    apply (list_elem_of_fmap
             (λ r, (DimProduct.product_id r, DimProduct.product_key r))) in Hp2
      as (dp & -> & Hdp).
    apply (list_elem_of_fmap
             (λ r, (DimShipping.ship_mode r, DimShipping.shipping_key r))) in Hp3
      as (ds & -> & Hds).
    cbn [fst snd] in *.
    exists r, ordered, shipped, dc, dp, ds. unfold with_date_keys in *.
    revert Hon1 Hon2 Hon3. cell_simpl. intros Hon1 Hon2 Hon3.
    rewrite Hordered, Hshipped. repeat split; try done.
Qed.

(** ** A completed load *)

(** What holds of the database once [load_fact_sales] has returned in
    [load_data]: the fact table has one row per record, the surrogate keys of
    every dimension are distinct, and every key of a fact row is the key of a
    dimension row. *)
Definition surrogate (k : Z) : Cell := Num (inject_Z k).

Definition references (db : Database) (f : FactSales.row) : Prop :=
  (∃ d, d ∈ dim_date db ∧ FactSales.order_date_key f = surrogate (DimDate.date_key d))
  ∧ (∃ d, d ∈ dim_date db ∧ FactSales.ship_date_key f = surrogate (DimDate.date_key d))
  ∧ (∃ d, d ∈ dim_customer db
          ∧ FactSales.customer_key f = surrogate (DimCustomer.customer_key d))
  ∧ (∃ d, d ∈ dim_product db
          ∧ FactSales.product_key f = surrogate (DimProduct.product_key d))
  ∧ (∃ d, d ∈ dim_shipping db
          ∧ FactSales.shipping_key f = surrogate (DimShipping.shipping_key d)).

Definition loaded (df : DataFrame) (db : Database) : Prop :=
  length (fact_sales db) = len df
  ∧ NoDup (map DimDate.date_key (dim_date db))
  ∧ NoDup (map DimCustomer.customer_key (dim_customer db))
  ∧ NoDup (map DimProduct.product_key (dim_product db))
  ∧ NoDup (map DimShipping.shipping_key (dim_shipping db))
  ∧ ∀ f, f ∈ fact_sales db → references db f.

Lemma surrogate_inj (a b : Z) : surrogate a = surrogate b → a = b.
Proof. unfold surrogate, inject_Z. by intros [= ->]. Qed.

Lemma populated (df df' : DataFrame) (db1 db2 db3 db4 db5 db6 : Database)
    (n1 n2 n3 n4 n5 n6 : nat) (l1 l2 l3 l4 l5 l6 : list LogRecord) :
  load.load_staging df empty_database = (Ok n1, db1, l1) →
  load.load_dim_date df db1 = (Ok n2, db2, l2) →
  load.load_dim_customer df db2 = (Ok n3, db3, l3) →
  load.load_dim_product df db3 = (Ok n4, db4, l4) →
  load.load_dim_shipping df db4 = (Ok n5, db5, l5) →
  load.load_fact_sales df db5 = (Ok (n6, df'), db6, l6) →
  len df' = len df ∧ loaded df db6.
Proof.
  intros Hst Hdd Hdc Hdp Hds Hfs.
  apply load_staging_Ok in Hst as (Hd1 & Hc1 & Hp1 & Hs1 & Hf1).
  apply load_dim_date_Ok in Hdd as (Hd2 & _ & Hnd2 & _ & Hc2 & Hp2 & Hs2 & Hf2).
  apply load_dim_customer_Ok in Hdc as (Hc3 & Hnc3 & _ & Hd3 & Hp3 & Hs3 & Hf3).
  apply load_dim_product_Ok in Hdp as (Hp4 & Hnp4 & _ & Hd4 & Hc4 & Hs4 & Hf4).
  apply load_dim_shipping_Ok in Hds as (Hs5 & Hns5 & _ & Hd5 & Hc5 & Hp5 & Hf5).
  apply load_fact_sales_Ok in Hfs
    as (Hlen & _ & Hd6 & Hc6 & Hp6 & Hs6 & facts & Hf6 & _ & Hcount & Hrefs).
  cbn [dim_date dim_customer dim_product dim_shipping fact_sales empty_database] in *.
  (* the tables as the run built them *)
  assert (fact_sales db5 = []) as Hf0 by congruence.
  assert (dim_customer db2 = []) as Hc0 by congruence.
  assert (dim_product db3 = []) as Hp0 by congruence.
  assert (dim_shipping db4 = []) as Hs0 by congruence.
  rewrite Hf0 in Hf6. rewrite Hc0 in Hc3. rewrite Hp0 in Hp4. rewrite Hs0 in Hs5.
  cbn [app map sql.last_key foldr] in *.
  assert (dim_date db6 = dim_date db2) as Hdate by congruence.
  assert (dim_customer db6 = dim_customer db3) as Hcust by congruence.
  assert (dim_product db6 = dim_product db4) as Hprod by congruence.
  assert (dim_shipping db6 = dim_shipping db5) as Hship by congruence.
  assert (dim_date db5 = dim_date db2) as Hdate5 by congruence.
  assert (dim_customer db5 = dim_customer db3) as Hcust5 by congruence.
  assert (dim_product db5 = dim_product db4) as Hprod5 by congruence.
  split; [exact Hlen |]. unfold loaded. rewrite Hdate, Hcust, Hprod, Hship.
  split; [| split; [exact Hnd2 |]; split; [| split; [| split]]].
  - rewrite Hf6, autoincrement_length. apply Hcount; congruence.
  - rewrite Hc3. by apply autoincrement_NoDup.
  - rewrite Hp4. by apply autoincrement_NoDup.
  - rewrite Hs5. by apply autoincrement_NoDup.
  - intros f Hf. rewrite Hf6 in Hf.
    apply (autoincrement_elem _ FactSales.sales_key) in Hf as (r & Hr & ->); [| done].
    destruct (Hrefs r Hr)
      as (x & ordered & shipped & dc & dp & ds & Hx & Hxo & Hxs & Hko & Hks
          & Hdc & _ & Hkc & Hdp & _ & Hkp & Hds & _ & Hksh & _).
    rewrite Hcust5 in Hdc. rewrite Hprod5 in Hdp.
    unfold references, load.fact_row. cbn.
    rewrite Hdate, Hcust, Hprod, Hship, Hko, Hks, Hkc, Hkp, Hksh.
    assert (∀ t, t ∈ [ordered; shipped] →
              ∃ d, d ∈ dim_date db2
                   ∧ surrogate (Calendar.date_key t) = surrogate (DimDate.date_key d))
      as Hdates.
    { intros t Ht. exists (load.date_row t).
      split; [| unfold load.date_row; cbn [DimDate.date_key]; reflexivity].
      rewrite Hd2. apply elem_of_app. right.
      apply (list_elem_of_fmap_2 load.date_row).
      rewrite sorted_elem, unique_elem, elem_of_app, !stamps_elem.
      unfold column. cbn [values].
      apply elem_of_cons in Ht as [-> | Ht].
      - left. rewrite <- Hxo. by apply (list_elem_of_fmap_2 (λ r, cell r "order_date")).
      - apply list_elem_of_singleton in Ht as ->.
        right. rewrite <- Hxs. by apply (list_elem_of_fmap_2 (λ r, cell r "ship_date")). }
    split; [apply Hdates; by left |].
    split; [apply Hdates; right; by left |].
    split; [by exists dc |]. split; [by exists dp | by exists ds].
Qed.

(** ** Which errors a loader can raise *)

Definition mismatch : Exception :=
  ValueError "Load validation failed - row count mismatch!" [].

(** A computation that never raises the reconciler's error. *)
Definition quiet {S A} (m : M S A) : Prop :=
  ∀ s e s' l, m s = (Raise e, s', l) → e ≠ mismatch.

Section Quiet.
Context {S : Type}.

Lemma quiet_ret {A} (a : A) : quiet (S:=S) (ret a).
Proof. intros s e s' l. unfold ret. by intros [=]. Qed.

Lemma quiet_raise {A} (e : Exception) : e ≠ mismatch → quiet (S:=S) (A:=A) (raise e).
Proof. intros He s e' s' l. unfold raise. by intros [= <- _ _]. Qed.

Lemma quiet_log lvl tmpl xs : quiet (S:=S) (log lvl tmpl xs).
Proof. intros s e s' l. unfold log. by intros [=]. Qed.

Lemma quiet_get : quiet (S:=S) get.
Proof. intros s e s' l. unfold get. by intros [=]. Qed.

Lemma quiet_put (s0 : S) : quiet (put s0).
Proof. intros s e s' l. unfold put. by intros [=]. Qed.

Lemma quiet_bind {A B} (m : M S A) (k : A → M S B) :
  quiet m → (∀ a, quiet (k a)) → quiet (bind m k).
Proof.
  intros Hm Hk s e s' l Hrun. apply bind_Raise in Hrun as [Hrun | Hrun].
  - by eapply Hm.
  - destruct Hrun as (a & s1 & l1 & l2 & _ & Hrun & _). by eapply Hk.
Qed.

Lemma quiet_getitem (df : DataFrame) (c : string) : quiet (S:=S) (getitem df c).
Proof.
  unfold getitem. destruct (decide (c ∈ columns df)); [apply quiet_ret |].
  by apply quiet_raise.
Qed.

End Quiet.

(** Proves [quiet] for a computation written with the primitives. *)
Ltac quiet_step :=
  first
    [ apply quiet_ret
    | apply quiet_log
    | apply quiet_get
    | apply quiet_put
    | apply quiet_getitem
    | apply quiet_raise; discriminate
    | apply quiet_bind; [| intros ?]
    | match goal with
      | |- quiet (if ?b then _ else _) => destruct b
      | |- quiet (match ?x with _ => _ end) => destruct x
      | |- quiet (let '(_, _) := ?x in _) => destruct x
      end ].

Ltac quiet_auto := repeat quiet_step.

Lemma quiet_getitems {S} (df : DataFrame) (cols : list string) :
  quiet (S:=S) (load.getitems df cols).
Proof. unfold load.getitems. quiet_auto. Qed.

Lemma quiet_dt {S} (s : Series) : quiet (S:=S) (pd.dt s).
Proof. unfold pd.dt. quiet_auto. Qed.

Lemma quiet_datetime_column {S} (df : DataFrame) (c : string) :
  quiet (S:=S) (load.datetime_column df c).
Proof. unfold load.datetime_column. quiet_auto. Qed.

Lemma quiet_date_keys {S} (l : list Cell) : quiet (S:=S) (load.date_keys l).
Proof. unfold load.date_keys. quiet_auto. Qed.

Lemma quiet_merge_left {S} (left : DataFrame) (right : list (Cell * Z)) (on key : string) :
  quiet (S:=S) (load.merge_left left right on key).
Proof. unfold load.merge_left. quiet_auto. Qed.

Lemma quiet_create_schema : quiet load.create_schema.
Proof. unfold load.create_schema. quiet_auto. Qed.

Lemma quiet_load_staging (df : DataFrame) : quiet (load.load_staging df).
Proof.
  unfold load.load_staging, load.modify.
  repeat first [apply quiet_getitems | apply quiet_dt | quiet_step].
Qed.

Lemma quiet_load_dim_date (df : DataFrame) : quiet (load.load_dim_date df).
Proof.
  unfold load.load_dim_date. repeat first [apply quiet_datetime_column | quiet_step].
Qed.

Lemma quiet_load_dim_customer (df : DataFrame) : quiet (load.load_dim_customer df).
Proof.
  unfold load.load_dim_customer.
  repeat first [apply quiet_datetime_column | apply quiet_getitems | quiet_step].
Qed.

Lemma quiet_load_dim_product (df : DataFrame) : quiet (load.load_dim_product df).
Proof.
  unfold load.load_dim_product. repeat first [apply quiet_getitems | quiet_step].
Qed.

Lemma quiet_load_dim_shipping (df : DataFrame) : quiet (load.load_dim_shipping df).
Proof.
  unfold load.load_dim_shipping. repeat first [apply quiet_getitems | quiet_step].
Qed.

Lemma quiet_load_fact_sales (df : DataFrame) : quiet (load.load_fact_sales df).
Proof.
  unfold load.load_fact_sales.
  repeat first [apply quiet_datetime_column | apply quiet_getitems
               | apply quiet_date_keys | apply quiet_merge_left | quiet_step].
Qed.

(** ** The load phase as a whole *)

(** A row of the staging table: the twenty staging columns of a record, the
    two dates as [YYYY-MM-DD] text. *)
Definition iso_cell : Cell → Cell :=
  pd.on_stamp (λ t, Str (Calendar.strftime_iso t)).

Definition staged (r : gmap string Cell) : gmap string Cell :=
  let p := load.project load.staging_cols r in
  <["ship_date" := iso_cell (cell r "ship_date")]>
    (<["order_date" := iso_cell (cell r "order_date")]> p).

Lemma load_staging_rows (df : DataFrame) (db db' : Database) (n : nat) l :
  load.load_staging df db = (Ok n, db', l) →
  staging_raw_sales db' = staging_raw_sales db ++ map staged (rows df)
  ∧ n = len df.
Proof.
  unfold load.load_staging, load.modify. intros Hrun. loadinv.
  cbn [staging_raw_sales].
  rewrite (setitem_rows_of _ "ship_date" _ iso_cell) by reflexivity.
  rewrite (setitem_rows_of _ "order_date" _ iso_cell) by reflexivity.
  match goal with Hrows : rows _ = map _ _ |- _ => rewrite Hrows end.
  rewrite !map_map.
  assert (∀ r : gmap string Cell,
            <["ship_date" := iso_cell
                (cell (<["order_date" := iso_cell
                           (cell (load.project load.staging_cols r) "order_date")]>
                         (load.project load.staging_cols r)) "ship_date")]>
              (<["order_date" := iso_cell
                   (cell (load.project load.staging_cols r) "order_date")]>
                 (load.project load.staging_cols r))
            = staged r) as Hrow.
  { intros r. unfold staged. cbv zeta. cell_simpl.
    rewrite !project_cell by (unfold load.staging_cols; in_labels). done. }
  split.
  - f_equal; apply map_ext; intros r; apply Hrow.
  - unfold len. rewrite (setitem_rows_of _ "ship_date" _ iso_cell) by reflexivity.
    rewrite (setitem_rows_of _ "order_date" _ iso_cell) by reflexivity.
    match goal with Hrows : rows _ = map _ _ |- _ => rewrite Hrows end.
    by rewrite !length_map.
Qed.

Lemma load_data_Ok (df : DataFrame) (db db' : Database)
    (counts : list (string * nat)) l :
  load.load_data df db = (Ok counts, db', l) →
  loaded df db'
  ∧ staging_raw_sales db' = map staged (rows df)
  ∧ counts = map (λ t, (t.1, t.2 db')) load.tables.
Proof.
  unfold load.load_data. intros Hrun.
  bind_as Hrun u1 H1. apply log_Ok in H1 as [-> _].
  bind_as Hrun u2 H2. apply log_Ok in H2 as [-> _].
  bind_as Hrun u3 H3. apply log_Ok in H3 as [-> _].
  bind_as Hrun u4 H4. destruct (create_schema_eval db) as [lcs Hcs].
  rewrite Hcs in H4. injection H4 as _ <- _.
  bind_as Hrun n1 Hst. bind_as Hrun n2 Hdd. bind_as Hrun n3 Hdc.
  bind_as Hrun n4 Hdp. bind_as Hrun n5 Hds. bind_as Hrun p Hfs.
  destruct p as [n6 df'].
  bind_as Hrun c Hv. bind_as Hrun u5 H5. apply log_Ok in H5 as [-> _].
  apply ret_Ok in Hrun as (-> & -> & _).
  rewrite validate_load_eval in Hv. cbv zeta in Hv.
  destruct (decide _) as [? | _] in Hv; [discriminate Hv |].
  injection Hv as <- <- _.
  pose proof (load_staging_rows _ _ _ _ _ Hst) as [Hrows _].
  destruct (populated _ _ _ _ _ _ _ _ _ _ _ _ _ _ _ _ _ _ _ _
              Hst Hdd Hdc Hdp Hds Hfs) as [_ Hloaded].
  split; [exact Hloaded |]. split; [| reflexivity].
  apply load_dim_date_Ok in Hdd as (_ & _ & _ & Hs2 & _).
  apply load_dim_customer_Ok in Hdc as (_ & _ & Hs3 & _).
  apply load_dim_product_Ok in Hdp as (_ & _ & Hs4 & _).
  apply load_dim_shipping_Ok in Hds as (_ & _ & Hs5 & _).
  apply load_fact_sales_Ok in Hfs as (_ & Hs6 & _).
  cbv zeta in *. rewrite Hs6, Hs5, Hs4, Hs3, Hs2, Hrows. done.
Qed.

(** Splits a failed run of a sequence: either the first step raised, which
    the given fact about that step settles, or it returned and the rest
    raised. *)
Tactic Notation "raise_as" hyp(H) ident(x) ident(Hx) "by" tactic3(tac) :=
  let s := fresh "s" in
  let l1 := fresh "l" in
  let l2 := fresh "l" in
  let El := fresh "El" in
  apply bind_Raise in H as [H | (x & s & l1 & l2 & Hx & H & El)];
  [ solve [tac] | ].

Lemma load_data_Raise (df : DataFrame) (db db' : Database) (e : Exception) l :
  load.load_data df db = (Raise e, db', l) → e ≠ mismatch.
Proof.
  unfold load.load_data. intros Hrun.
  raise_as Hrun u1 H1 by (by eapply quiet_log).
  raise_as Hrun u2 H2 by (by eapply quiet_log).
  raise_as Hrun u3 H3 by (by eapply quiet_log).
  raise_as Hrun u4 H4 by (by eapply quiet_create_schema).
  destruct (create_schema_eval s1) as [lcs Hcs].
  rewrite Hcs in H4. injection H4 as _ <- _.
  raise_as Hrun n1 Hst by (by eapply quiet_load_staging).
  raise_as Hrun n2 Hdd by (by eapply quiet_load_dim_date).
  raise_as Hrun n3 Hdc by (by eapply quiet_load_dim_customer).
  raise_as Hrun n4 Hdp by (by eapply quiet_load_dim_product).
  raise_as Hrun n5 Hds by (by eapply quiet_load_dim_shipping).
  raise_as Hrun p Hfs by (by eapply quiet_load_fact_sales).
  destruct p as [n6 df'].
  destruct (populated _ _ _ _ _ _ _ _ _ _ _ _ _ _ _ _ _ _ _ _
              Hst Hdd Hdc Hdp Hds Hfs) as [Hlen [Hfacts _]].
  exfalso.
  apply bind_Raise in Hrun as [Hv | (c & s' & l1' & l2' & _ & Hrun & _)].
  - rewrite validate_load_eval in Hv. cbv zeta in Hv.
    destruct (decide _) as [Hne | _] in Hv; [| discriminate Hv].
    apply Hne. congruence.
  - apply bind_Raise in Hrun as [Hrun | (? & ? & ? & ? & _ & Hrun & _)];
      discriminate Hrun.
Qed.

(** ** The export query over a loaded database *)

Lemma on_surrogate (a b : Z) : export.on (surrogate a) b = true ↔ a = b.
Proof.
  unfold export.on, surrogate. rewrite Qeq_bool_iff. split.
  - apply inject_Z_injective.
  - by intros ->.
Qed.

(** A foreign key that is the key of a row of a table whose keys are
    distinct joins with that row and no other. *)
Lemma join_one {A} (key : A → Z) (l : list A) (fk : Cell) (x : A) :
  NoDup (map key l) → x ∈ l → fk = surrogate (key x) →
  filter (λ y, export.on fk (key y) = true) l = [x].
Proof.
  intros Hnd Hx ->. induction l as [|y l IH]; [by apply elem_of_nil in Hx |].
  cbn [map] in Hnd. apply NoDup_cons in Hnd as [Hy Hnd].
  rewrite filter_cons. destruct (decide (export.on (surrogate (key x)) (key y) = true))
    as [Hon | Hoff].
  - apply on_surrogate in Hon. f_equal.
    + apply elem_of_cons in Hx as [-> | Hx]; [done |].
      exfalso. apply Hy. rewrite <- Hon. by apply (list_elem_of_fmap_2 key).
    + apply filter_none. intros z Hz Hz'. apply on_surrogate in Hz'.
      apply Hy. rewrite <- Hon, Hz'. by apply (list_elem_of_fmap_2 key).
  - apply IH; [done |]. apply elem_of_cons in Hx as [-> | Hx]; [| done].
    exfalso. apply Hoff. by apply on_surrogate.
Qed.

Lemma query_loaded (df : DataFrame) (db : Database) :
  loaded df db →
  map export.order_id (export.query db) = map FactSales.order_id (fact_sales db)
  ∧ ∀ x, x ∈ export.query db →
      ∃ f d c p s,
        f ∈ fact_sales db ∧ d ∈ dim_date db ∧ c ∈ dim_customer db
        ∧ p ∈ dim_product db ∧ s ∈ dim_shipping db
        ∧ FactSales.order_date_key f = surrogate (DimDate.date_key d)
        ∧ FactSales.customer_key f = surrogate (DimCustomer.customer_key c)
        ∧ FactSales.product_key f = surrogate (DimProduct.product_key p)
        ∧ FactSales.shipping_key f = surrogate (DimShipping.shipping_key s)
        ∧ export.sales_amount x = FactSales.sales_amount f
        ∧ export.profit x = FactSales.profit f
        ∧ export.full_date x = DimDate.full_date d
        ∧ export.customer_id x = DimCustomer.customer_id c
        ∧ export.product_id x = DimProduct.product_id p
        ∧ export.ship_mode x = DimShipping.ship_mode s.
Proof.
  intros (_ & Hnd & Hnc & Hnp & Hns & Hrefs). unfold export.query.
  generalize dependent (fact_sales db). intros facts Hrefs.
  induction facts as [|f facts IH]; [split; [done | intros x Hx; by apply elem_of_nil in Hx] |].
  destruct (Hrefs f) as ((d & Hd & Hkd) & _ & (c & Hc & Hkc) & (p & Hp & Hkp) & (s & Hs & Hks));
    [by left |].
  destruct IH as [IHids IHrows]; [intros f' Hf'; apply Hrefs; by right |].
  cbn [flat_map].
  rewrite (join_one DimDate.date_key _ _ d Hnd Hd Hkd).
  rewrite (join_one DimCustomer.customer_key _ _ c Hnc Hc Hkc).
  rewrite (join_one DimProduct.product_key _ _ p Hnp Hp Hkp).
  rewrite (join_one DimShipping.shipping_key _ _ s Hns Hs Hks).
  cbn [flat_map map app]. split.
  - f_equal. exact IHids.
  - intros x Hx. apply elem_of_cons in Hx as [-> | Hx].
    + exists f, d, c, p, s. cbn. repeat split; try done. by left.
    + destruct (IHrows x Hx) as (f' & d' & c' & p' & s' & Hf' & Hrest).
      exists f', d', c', p', s'. split; [by right | exact Hrest].
Qed.

(** A run that returns is the triple of its result, its store and its
    log. *)
Lemma run_Ok {S A} (o : Exc A * S * list LogRecord) (a : A) :
  result o = Ok a → o = (Ok a, store o, logged o).
Proof. destruct o as [[r s] l]. unfold result, store, logged. cbn. by intros ->. Qed.

Lemma staged_cell (r : gmap string Cell) (c : string) :
  c ∈ load.staging_cols →
  cell (staged r) c =
    if bool_decide (c ∈ ["order_date"; "ship_date"]%string)
    then iso_cell (cell r c) else cell r c.
Proof.
  intros Hc. unfold staged. cbv zeta. rewrite !cell_insert.
  destruct (decide ("ship_date"%string = c)) as [<- | Hs]; [done |].
  destruct (decide ("order_date"%string = c)) as [<- | Ho]; [done |].
  rewrite project_cell by done. rewrite bool_decide_eq_false_2; [done |].
  rewrite elem_of_cons, list_elem_of_singleton. intros [-> | ->]; done.
Qed.

(** X2. [load_staging] appends one staging row per record of the batch, in
    the order of the batch, and leaves the five other tables as they are; a
    staging row holds the twenty staging columns of its record, the order
    date and the ship date as [YYYY-MM-DD] text (a missing date stays
    missing) and every other value unchanged.  The count it returns is the
    number of records. *)
Theorem load_staging_copies (df : DataFrame) (db db' : Database) (n : nat)
    (l : list LogRecord)
    (Hrun : load.load_staging df db = (Ok n, db', l)) :
  ∃ new,
    staging_raw_sales db' = staging_raw_sales db ++ new
    ∧ n = len df
    ∧ Forall2
        (λ r s, ∀ c, c ∈ load.staging_cols →
           cell s c =
             if bool_decide (c ∈ ["order_date"; "ship_date"]%string)
             then pd.on_stamp (λ t, Str (Calendar.strftime_iso t)) (cell r c)
             else cell r c)
        (rows df) new
    ∧ dim_date db' = dim_date db ∧ dim_customer db' = dim_customer db
    ∧ dim_product db' = dim_product db ∧ dim_shipping db' = dim_shipping db
    ∧ fact_sales db' = fact_sales db.
Proof.
  pose proof (load_staging_rows _ _ _ _ _ Hrun) as [Hrows Hn].
  apply load_staging_Ok in Hrun as (Hd & Hc & Hp & Hs & Hf).
  exists (map staged (rows df)). split; [done |]. split; [done |].
  split; [| done]. clear.
  induction (rows df) as [|r rs IH]; [constructor |].
  cbn [map]. constructor; [| exact IH].
  intros c Hc'. by apply staged_cell.
Qed.

(** On the sample batch three rows are staged, the first with the order
    date 2019-01-03 as text. *)
Lemma load_staging_sample :
  ∃ new,
    staging_raw_sales (store (load.load_staging Fixture.transformed empty_database))
    = new
    ∧ length new = 3%nat
    ∧ map (λ s, cell s "order_date") new
      = [Str "2019-01-03"; Str "2019-01-04"; Str "2019-01-05"].
Proof.
  assert (result (load.load_staging Fixture.transformed empty_database) = Ok 3%nat)
    as Hok by (vm_compute; reflexivity).
  destruct (load_staging_copies _ _ _ _ _ (run_Ok _ _ Hok)) as (new & Hnew & _).
  exists (staging_raw_sales
            (store (load.load_staging Fixture.transformed empty_database))).
  split; [reflexivity |]. split; vm_compute; reflexivity.
Defined.


(** X4. After a successful [load_data] the star schema is referentially
    complete although SQLite does not enforce the foreign keys: the keys of
    each dimension table are pairwise distinct, and each of the five keys of
    every fact row is the key of a row of its dimension table. *)
Theorem load_data_keys_resolve (df : DataFrame) (db db' : Database)
    (counts : list (string * nat)) (l : list LogRecord)
    (Hrun : load.load_data df db = (Ok counts, db', l)) :
  NoDup (map DimDate.date_key (dim_date db'))
  ∧ NoDup (map DimCustomer.customer_key (dim_customer db'))
  ∧ NoDup (map DimProduct.product_key (dim_product db'))
  ∧ NoDup (map DimShipping.shipping_key (dim_shipping db'))
  ∧ ∀ f, f ∈ fact_sales db' →
      (∃ d, d ∈ dim_date db'
            ∧ FactSales.order_date_key f = Num (inject_Z (DimDate.date_key d)))
      ∧ (∃ d, d ∈ dim_date db'
              ∧ FactSales.ship_date_key f = Num (inject_Z (DimDate.date_key d)))
      ∧ (∃ c, c ∈ dim_customer db'
              ∧ FactSales.customer_key f
                = Num (inject_Z (DimCustomer.customer_key c)))
      ∧ (∃ p, p ∈ dim_product db'
              ∧ FactSales.product_key f
                = Num (inject_Z (DimProduct.product_key p)))
      ∧ (∃ s, s ∈ dim_shipping db'
              ∧ FactSales.shipping_key f
                = Num (inject_Z (DimShipping.shipping_key s))).
Proof.
  apply load_data_Ok in Hrun as ((_ & Hd & Hc & Hp & Hs & Hrefs) & _).
  repeat (split; [done |]). intros f Hf. exact (Hrefs f Hf).
Qed.

(** The sample batch loads; its three fact rows refer to the customers
    1, 2 and 3. *)
Lemma load_data_keys_resolve_sample :
  NoDup (map DimCustomer.customer_key
           (dim_customer (store (load.load_data Fixture.transformed empty_database))))
  ∧ map FactSales.customer_key
      (fact_sales (store (load.load_data Fixture.transformed empty_database)))
    = [Num 1; Num 2; Num 3].
Proof.
  assert (result (load.load_data Fixture.transformed empty_database)
          = Ok [("staging_raw_sales", 3); ("dim_date", 6); ("dim_customer", 3);
                ("dim_product", 3); ("dim_shipping", 3); ("fact_sales", 3)]%nat%string)
    as Hok by (vm_compute; reflexivity).
  destruct (load_data_keys_resolve _ _ _ _ _ (run_Ok _ _ Hok)) as (_ & Hc & _).
  split; [exact Hc | vm_compute; reflexivity].
Defined.

(** X5. Over a database that [load_data] has just loaded, the export query
    returns exactly one row per record of the batch: one per fact row, in
    the order of the fact table, each made of that fact row and of the
    dimension rows its keys name.  No inner join drops or repeats a fact. *)
Theorem export_one_row_per_record (df : DataFrame) (db db' : Database)
    (counts : list (string * nat)) (l : list LogRecord)
    (Hrun : load.load_data df db = (Ok counts, db', l)) :
  export.rows_exported db' = len df
  ∧ map export.order_id (export.query db')
    = map FactSales.order_id (fact_sales db')
  ∧ ∀ x, x ∈ export.query db' →
      ∃ f d c p s,
        f ∈ fact_sales db' ∧ d ∈ dim_date db' ∧ c ∈ dim_customer db'
        ∧ p ∈ dim_product db' ∧ s ∈ dim_shipping db'
        ∧ FactSales.order_date_key f = Num (inject_Z (DimDate.date_key d))
        ∧ FactSales.customer_key f = Num (inject_Z (DimCustomer.customer_key c))
        ∧ FactSales.product_key f = Num (inject_Z (DimProduct.product_key p))
        ∧ FactSales.shipping_key f = Num (inject_Z (DimShipping.shipping_key s))
        ∧ export.sales_amount x = FactSales.sales_amount f
        ∧ export.profit x = FactSales.profit f
        ∧ export.full_date x = DimDate.full_date d
        ∧ export.customer_id x = DimCustomer.customer_id c
        ∧ export.product_id x = DimProduct.product_id p
        ∧ export.ship_mode x = DimShipping.ship_mode s.
Proof.
  apply load_data_Ok in Hrun as (Hloaded & _).
  destruct (query_loaded df db' Hloaded) as [Hids Hrows].
  split; [| split; [exact Hids | exact Hrows]].
  unfold export.rows_exported.
  rewrite <- (length_map export.order_id), Hids, length_map.
  by destruct Hloaded as [Hlen _].
Qed.

(** The export of the loaded sample batch has three rows. *)
Lemma export_sample :
  export.rows_exported (store (load.load_data Fixture.transformed empty_database))
  = 3%nat
  ∧ map export.full_date
      (export.query (store (load.load_data Fixture.transformed empty_database)))
    = ["2019-01-03"; "2019-01-04"; "2019-01-05"]%string.
Proof.
  assert (result (load.load_data Fixture.transformed empty_database)
          = Ok [("staging_raw_sales", 3); ("dim_date", 6); ("dim_customer", 3);
                ("dim_product", 3); ("dim_shipping", 3); ("fact_sales", 3)]%nat%string)
    as Hok by (vm_compute; reflexivity).
  destruct (export_one_row_per_record _ _ _ _ _ (run_Ok _ _ Hok)) as (Hn & _).
  split; [rewrite Hn | ]; vm_compute; reflexivity.
Defined.

(** ** Reloading *)

Lemma load_data_from_empty (df : DataFrame) (db : Database) :
  load.load_data df db = load.load_data df empty_database.
Proof. reflexivity. Qed.

(** X6. [load_data] rebuilds the warehouse from the batch alone: its result,
    the database it leaves and the records it logs do not depend on what the
    database held before, so loading the same batch a second time leaves
    the database as the first load left it. *)
Theorem load_data_rebuilds (df : DataFrame) (db1 db2 : Database) :
  load.load_data df db1 = load.load_data df db2
  ∧ store (load.load_data df (store (load.load_data df db1)))
    = store (load.load_data df db1).
Proof.
  split.
  - by rewrite (load_data_from_empty df db1), (load_data_from_empty df db2).
  - by rewrite (load_data_from_empty df (store _)), (load_data_from_empty df db1).
Qed.

(** ** Failed loads *)

(** A computation that leaves the store as it is, and one that leaves it as
    it is when it raises. *)
Definition keeps {S A} (m : M S A) : Prop :=
  ∀ s r s' l, m s = (r, s', l) → s' = s.

Definition fails_clean {S A} (m : M S A) : Prop :=
  ∀ s e s' l, m s = (Raise e, s', l) → s' = s.

Definition returns {S A} (m : M S A) : Prop :=
  ∀ s e s' l, m s ≠ (Raise e, s', l).

Section Keeps.
Context {S : Type}.

Lemma keeps_ret {A} (a : A) : keeps (S:=S) (ret a).
Proof. intros s r s' l. unfold ret. by intros [= _ <- _]. Qed.

Lemma keeps_raise {A} (e : Exception) : keeps (S:=S) (A:=A) (raise e).
Proof. intros s r s' l. unfold raise. by intros [= _ <- _]. Qed.

Lemma keeps_log lvl tmpl xs : keeps (S:=S) (log lvl tmpl xs).
Proof. intros s r s' l. unfold log. by intros [= _ <- _]. Qed.

Lemma keeps_get : keeps (S:=S) get.
Proof. intros s r s' l. unfold get. by intros [= _ <- _]. Qed.

Lemma keeps_bind {A B} (m : M S A) (k : A → M S B) :
  keeps m → (∀ a, keeps (k a)) → keeps (bind m k).
Proof.
  intros Hm Hk s r s' l. unfold bind.
  destruct (m s) as [[[a | e] s1] l1] eqn:Hrun.
  - apply Hm in Hrun as ->. destruct (k a s) as [[r2 s2] l2] eqn:Hrun2.
    apply Hk in Hrun2 as ->. by intros [= _ <- _].
  - apply Hm in Hrun as ->. by intros [= _ <- _].
Qed.

Lemma keeps_getitem (df : DataFrame) (c : string) : keeps (S:=S) (getitem df c).
Proof.
  unfold getitem. destruct (decide (c ∈ columns df)); [apply keeps_ret | apply keeps_raise].
Qed.

Lemma returns_ret {A} (a : A) : returns (S:=S) (ret a).
Proof. intros s e s' l. unfold ret. by intros [=]. Qed.

Lemma returns_log lvl tmpl xs : returns (S:=S) (log lvl tmpl xs).
Proof. intros s e s' l. unfold log. by intros [=]. Qed.

Lemma returns_get : returns (S:=S) get.
Proof. intros s e s' l. unfold get. by intros [=]. Qed.

Lemma returns_put (s0 : S) : returns (put s0).
Proof. intros s e s' l. unfold put. by intros [=]. Qed.

Lemma returns_bind {A B} (m : M S A) (k : A → M S B) :
  returns m → (∀ a, returns (k a)) → returns (bind m k).
Proof.
  intros Hm Hk s e s' l Hrun. apply bind_Raise in Hrun as [Hrun | Hrun].
  - by apply Hm in Hrun.
  - destruct Hrun as (a & s1 & l1 & l2 & _ & Hrun & _). by apply Hk in Hrun.
Qed.

Lemma fails_clean_returns {A} (m : M S A) : returns m → fails_clean m.
Proof. intros Hm s e s' l Hrun. by apply Hm in Hrun. Qed.

Lemma fails_clean_keeps {A} (m : M S A) : keeps m → fails_clean m.
Proof. intros Hm s e s' l Hrun. by apply Hm in Hrun. Qed.

Lemma fails_clean_bind {A B} (m : M S A) (k : A → M S B) :
  keeps m → (∀ a, fails_clean (k a)) → fails_clean (bind m k).
Proof.
  intros Hm Hk s e s' l Hrun. apply bind_Raise in Hrun as [Hrun | Hrun].
  - by apply Hm in Hrun.
  - destruct Hrun as (a & s1 & l1 & l2 & Hrun1 & Hrun & _).
    apply Hm in Hrun1 as ->. by apply Hk in Hrun.
Qed.

End Keeps.

Ltac keeps_step :=
  first
    [ apply keeps_ret
    | apply keeps_raise
    | apply keeps_log
    | apply keeps_get
    | apply keeps_getitem
    | apply keeps_bind; [| intros ?]
    | match goal with
      | |- keeps (if ?b then _ else _) => destruct b
      | |- keeps (match ?x with _ => _ end) => destruct x
      end ].

Ltac returns_step :=
  first
    [ apply returns_ret
    | apply returns_log
    | apply returns_get
    | apply returns_put
    | apply returns_bind; [| intros ?] ].

Lemma keeps_getitems {S} (df : DataFrame) (cols : list string) :
  keeps (S:=S) (load.getitems df cols).
Proof. unfold load.getitems. repeat keeps_step. Qed.

Lemma keeps_dt {S} (s : Series) : keeps (S:=S) (pd.dt s).
Proof. unfold pd.dt. repeat keeps_step. Qed.

Lemma keeps_datetime_column {S} (df : DataFrame) (c : string) :
  keeps (S:=S) (load.datetime_column df c).
Proof. unfold load.datetime_column. repeat keeps_step. Qed.

Lemma keeps_date_keys {S} (l : list Cell) : keeps (S:=S) (load.date_keys l).
Proof. unfold load.date_keys. repeat keeps_step. Qed.

Lemma keeps_merge_left {S} (left : DataFrame) (right : list (Cell * Z)) (on key : string) :
  keeps (S:=S) (load.merge_left left right on key).
Proof. unfold load.merge_left. repeat keeps_step. Qed.

(** Proves that a loader leaves the database as it is when it raises: its
    reads keep the store, and after its write nothing raises. *)
Ltac fails_clean_step :=
  first
    [ apply fails_clean_bind;
      [ first [ apply keeps_getitems | apply keeps_dt | apply keeps_datetime_column
              | apply keeps_date_keys | apply keeps_merge_left
              | solve [repeat keeps_step] ]
      | intros ? ]
    | apply fails_clean_returns; solve [repeat returns_step]
    | apply fails_clean_keeps; solve [repeat keeps_step]
    | match goal with
      | |- fails_clean (if ?b then _ else _) => destruct b
      end ].

Lemma fails_clean_load_staging (df : DataFrame) : fails_clean (load.load_staging df).
Proof. unfold load.load_staging, load.modify. repeat fails_clean_step. Qed.

Lemma fails_clean_load_dim_date (df : DataFrame) : fails_clean (load.load_dim_date df).
Proof. unfold load.load_dim_date. repeat fails_clean_step. Qed.

Lemma fails_clean_load_dim_customer (df : DataFrame) :
  fails_clean (load.load_dim_customer df).
Proof. unfold load.load_dim_customer. repeat fails_clean_step. Qed.

Lemma fails_clean_load_dim_product (df : DataFrame) :
  fails_clean (load.load_dim_product df).
Proof. unfold load.load_dim_product. repeat fails_clean_step. Qed.

Lemma fails_clean_load_dim_shipping (df : DataFrame) :
  fails_clean (load.load_dim_shipping df).
Proof. unfold load.load_dim_shipping. repeat fails_clean_step. Qed.

Lemma fails_clean_load_fact_sales (df : DataFrame) :
  fails_clean (load.load_fact_sales df).
Proof. unfold load.load_fact_sales. repeat fails_clean_step. Qed.

Tactic Notation "fail_as" hyp(H) ident(x) ident(s) ident(Hx) "by" tactic3(tac) :=
  let l1 := fresh "l" in
  let l2 := fresh "l" in
  let El := fresh "El" in
  apply bind_Raise in H as [H | (x & s & l1 & l2 & Hx & H & El)];
  [ tac | ].


(** ** Date columns that are no dates *)

Lemma getitems_eval {S} (df : DataFrame) (cols : list string) (s : S) :
  (∀ c, c ∈ cols → c ∈ columns df) →
  load.getitems df cols s =
    (Ok (mkDataFrame cols
           (list_to_map (map (λ c, (c, dtypes df !!! c)) cols))
           (map (load.project cols) (rows df))), s, []).
Proof.
  intros Hcols. unfold load.getitems. rewrite filter_none; [done |].
  intros c Hc Hn. by apply Hn, Hcols.
Qed.

Lemma project_dtype (d : gmap string DType) (cols : list string) (c : string) :
  c ∈ cols →
  (list_to_map (map (λ c, (c, d !!! c)) cols) : gmap string DType) !!! c = d !!! c.
Proof.
  intros Hc. induction cols as [|c0 cols IH]; [by apply elem_of_nil in Hc |].
  cbn [map list_to_map foldr]. destruct (decide (c0 = c)) as [-> | Hne].
  - by rewrite lookup_total_insert_eq.
  - rewrite lookup_total_insert_ne by done.
    apply IH. apply elem_of_cons in Hc as [-> | Hc]; done.
Qed.

Lemma bind_pure {S A B} (m : M S A) (k : A → M S B) (s : S) (a : A) :
  m s = (Ok a, s, []) → bind m k s = k a s.
Proof. unfold bind. intros ->. by destruct (k a s) as [[??]?]. Qed.

Lemma bind_log_fails {S B} lvl tmpl xs (k : () → M S B) (s s' : S) e l :
  k () s = (Raise e, s', l) →
  bind (log lvl tmpl xs) k s = (Raise e, s', mkLogRecord lvl (mkMessage tmpl xs) :: l).
Proof. unfold bind, log. by intros ->. Qed.

Lemma dt_refuses {S} (x : Series) (s : S) :
  dtype x ≠ datetime64 →
  pd.dt x s
  = (Raise (AttributeError "Can only use .dt accessor with datetimelike values"), s, []).
Proof. unfold pd.dt. intros Hx. by rewrite decide_False. Qed.

Lemma dt_eval {S} (x : Series) (s : S) :
  dtype x = datetime64 → pd.dt x s = (Ok (values x), s, []).
Proof. unfold pd.dt. intros Hx. by rewrite decide_True. Qed.

Lemma load_staging_refuses (df : DataFrame) (db : Database) :
  (∀ c, c ∈ load.staging_cols → c ∈ columns df) →
  dtypes df !!! "order_date" ≠ datetime64 ∨ dtypes df !!! "ship_date" ≠ datetime64 →
  ∃ l, load.load_staging df db =
         (Raise (AttributeError "Can only use .dt accessor with datetimelike values"),
          db, l).
Proof.
  intros Hcols Hdates. unfold load.load_staging.
  eexists. apply bind_log_fails.
  rewrite (bind_pure _ _ _ _ (getitems_eval df load.staging_cols db Hcols)).
  erewrite bind_pure;
    [| apply getitem_eval; cbn [columns]; unfold load.staging_cols; in_labels].
  destruct (decide (dtypes df !!! "order_date" = datetime64)) as [Horder | Horder].
  - destruct Hdates as [? | Hship]; [done |].
    erewrite bind_pure; cycle 1.
    { apply dt_eval. unfold column. cbn [dtype dtypes].
      rewrite project_dtype by (unfold load.staging_cols; in_labels). done. }
    erewrite bind_pure; cycle 1.
    { apply getitem_eval. unfold setitem. cbn [columns].
      rewrite decide_True by (unfold load.staging_cols; in_labels).
      unfold load.staging_cols; in_labels. }
    apply bind_fail. apply dt_refuses.
    unfold column, setitem. cbn [dtype dtypes].
    rewrite lookup_total_insert_ne by done.
    rewrite project_dtype by (unfold load.staging_cols; in_labels). done.
  - apply bind_fail. apply dt_refuses. unfold column. cbn [dtype dtypes].
    rewrite project_dtype by (unfold load.staging_cols; in_labels). done.
Qed.

(** A failed run is the triple of its exception, its store and its log. *)
Lemma run_Raise {S A} (o : Exc A * S * list LogRecord) (e : Exception) :
  result o = Raise e → o = (Raise e, store o, logged o).
Proof. destruct o as [[r s] l]. unfold result, store, logged. cbn. by intros ->. Qed.


(** X8. The load phase accepts the two date columns as [datetime64] only.
    Given a batch that has the staging columns but whose order dates or ship
    dates are of another dtype (such as the [object] column that
    [handle_nulls] makes of a date column by filling a missing date with
    'Unknown'), [load_data] raises [AttributeError] in [load_staging], after
    [create_schema] has emptied every table. *)
Theorem load_data_refuses_text_dates (df : DataFrame) (db : Database)
    (Hcols : ∀ c, c ∈ load.staging_cols → c ∈ columns df)
    (Hdates : dtypes df !!! "order_date" ≠ datetime64
              ∨ dtypes df !!! "ship_date" ≠ datetime64) :
  result (load.load_data df db)
  = Raise (AttributeError "Can only use .dt accessor with datetimelike values")
  ∧ store (load.load_data df db) = empty_database.
Proof.
  destruct (load_staging_refuses df empty_database Hcols Hdates) as [l Hst].
  rewrite (load_data_from_empty df db). unfold load.load_data.
  rewrite (result_bind _ _ _ () empty_database _ eq_refl).
  rewrite (store_bind _ _ _ () empty_database _ eq_refl).
  rewrite (result_bind _ _ _ () empty_database _ eq_refl).
  rewrite (store_bind _ _ _ () empty_database _ eq_refl).
  rewrite (result_bind _ _ _ () empty_database _ eq_refl).
  rewrite (store_bind _ _ _ () empty_database _ eq_refl).
  rewrite (result_bind _ _ _ () empty_database _ eq_refl).
  rewrite (store_bind _ _ _ () empty_database _ eq_refl).
  rewrite (bind_fail _ _ _ _ _ _ Hst). done.
Qed.

(** The transformed batch with the unshipped order: its ship dates are an
    [object] column, and the load refuses it. *)
Lemma load_data_refuses_sample :
  dtypes Fixture.unshipped !!! "ship_date" = object
  ∧ map (λ r, cell r "ship_date") (rows Fixture.unshipped)
    = [Stamp (mkTimestamp 2019 1 7); Str "Unknown"]
  ∧ result (load.load_data Fixture.unshipped empty_database)
    = Raise (AttributeError "Can only use .dt accessor with datetimelike values")
  ∧ store (load.load_data Fixture.unshipped empty_database) = empty_database.
Proof.
  split; [vm_compute; reflexivity |]. split; [vm_compute; reflexivity |].
  apply (load_data_refuses_text_dates Fixture.unshipped empty_database).
  - apply Forall_forall. vm_compute.
    repeat (constructor; [repeat first [apply list_elem_of_here | apply list_elem_of_further] |]).
    constructor.
  - right. vm_compute. discriminate.
Defined.

(** ** The pipeline *)

(** The record that [run_pipeline] logs before it re-raises. *)
Definition failure_record (e : Exception) : LogRecord :=
  mkLogRecord ERROR
    (mkMessage
       match e with
       | ValueError _ _ => "PIPELINE FAILED - VALIDATION ERROR"
       | _ => "PIPELINE FAILED - UNEXPECTED ERROR"
       end []).

Lemma on_failure_eval {S} (e : Exception) (s : S) :
  main.on_failure e s = (Ok (), s, [failure_record e]).
Proof. by destruct e. Qed.

Lemma try_except_Raise {S A} (body : M S A) (s s' : S) e l :
  body s = (Raise e, s', l) →
  main.try_except body main.on_failure s = (Raise e, s', l ++ [failure_record e]).
Proof. unfold main.try_except. intros ->. by rewrite on_failure_eval. Qed.

Lemma try_except_Ok {S A} (body : M S A) (handler : Exception → M S ())
    (s s' : S) a l :
  body s = (Ok a, s', l) → main.try_except body handler s = (Ok a, s', l).
Proof. unfold main.try_except. by intros ->. Qed.

Section Pipeline.
Context `{Pandas}.

Lemma run_pipeline_eval (df_raw : DataFrame) (db : Database) :
  main.run_pipeline df_raw db =
  match transform.transform_data df_raw () with
  | (Raise e, _, l) =>
      (Raise e, db,
       mkLogRecord INFO (mkMessage "AUTOMATED SALES REPORTING PIPELINE" [])
       :: (mkLogRecord INFO (mkMessage ">>> PHASE 2: TRANSFORM" []) :: l)
       ++ [failure_record e])
  | (Ok df, _, l) =>
      match load.load_data df db with
      | (Raise e, db', l') =>
          (Raise e, db',
           mkLogRecord INFO (mkMessage "AUTOMATED SALES REPORTING PIPELINE" [])
           :: (mkLogRecord INFO (mkMessage ">>> PHASE 2: TRANSFORM" [])
               :: l ++ mkLogRecord INFO (mkMessage ">>> PHASE 2 COMPLETED" [])
               :: mkLogRecord INFO (mkMessage ">>> PHASE 3: LOAD" []) :: l')
           ++ [failure_record e])
      | (Ok counts, db', l') =>
          (Ok counts, db',
           mkLogRecord INFO (mkMessage "AUTOMATED SALES REPORTING PIPELINE" [])
           :: mkLogRecord INFO (mkMessage ">>> PHASE 2: TRANSFORM" [])
           :: l ++ mkLogRecord INFO (mkMessage ">>> PHASE 2 COMPLETED" [])
           :: mkLogRecord INFO (mkMessage ">>> PHASE 3: LOAD" [])
           :: l' ++ [mkLogRecord INFO (mkMessage ">>> PHASE 3 COMPLETED" []);
                     mkLogRecord INFO (mkMessage "PIPELINE EXECUTION SUMMARY" [])])
      end
  end.
Proof.
  unfold main.run_pipeline.
  destruct (transform.transform_data df_raw ()) as [[[df | e] u] l] eqn:Ht.
  - destruct (load.load_data df db) as [[[counts | e] db'] l'] eqn:Hl.
    + unfold bind at 1. unfold log at 1.
      erewrite try_except_Ok; [reflexivity |].
      unfold bind, log, lift, ret. rewrite Ht, Hl. reflexivity.
    + unfold bind at 1. unfold log at 1.
      erewrite try_except_Raise; [reflexivity |].
      unfold bind, log, lift, ret. rewrite Ht, Hl. reflexivity.
  - unfold bind at 1. unfold log at 1.
    erewrite try_except_Raise; [reflexivity |].
    unfold bind, log, lift. rewrite Ht. reflexivity.
Qed.


End Pipeline.


(** ** The dimensions *)

Lemma keep_first_first {A K} `{EqDecision K} (key : A → K) (seen : list K)
    (l : list A) (x : A) :
  x ∈ keep_first key seen l →
  ∃ l1 l2, l = l1 ++ x :: l2 ∧ (key x ∉ seen) ∧ ∀ y, y ∈ l1 → key y ≠ key x.
Proof.
  revert seen. induction l as [|y l IH]; intros seen; cbn [keep_first].
  - intros Hx. by apply elem_of_nil in Hx.
  - destruct (decide (key y ∈ seen)) as [Hy | Hy].
    + intros Hx. destruct (IH _ Hx) as (l1 & l2 & -> & Hseen & Hl1).
      exists (y :: l1), l2. split; [done |]. split; [done |].
      intros z Hz. apply elem_of_cons in Hz as [-> | Hz]; [| by apply Hl1].
      intros Heq. apply Hseen. by rewrite <- Heq.
    + intros Hx. apply elem_of_cons in Hx as [-> | Hx].
      * exists [], l. split; [done |]. split; [done |].
        intros z Hz. by apply elem_of_nil in Hz.
      * destruct (IH _ Hx) as (l1 & l2 & -> & Hseen & Hl1).
        exists (y :: l1), l2. split; [done |].
        split; [intros Hin; apply Hseen; by right |].
        intros z Hz. apply elem_of_cons in Hz as [-> | Hz]; [| by apply Hl1].
        intros Heq. apply Hseen. rewrite <- Heq. by left.
Qed.

Lemma earliest_spec (l : list Timestamp) :
  match load.earliest l with
  | Stamp t => t ∈ l ∧ ∀ u, u ∈ l → Calendar.ltb u t = false
  | c => c = NA ∧ l = []
  end.
Proof.
  destruct l as [|t l]; [done |]. cbn [load.earliest].
  induction l as [|a l IH]; cbn [foldr].
  - split; [by left |]. intros u Hu. apply list_elem_of_singleton in Hu as ->.
    apply ltb_irrefl.
  - destruct IH as [Hin Hmin].
    set (m := foldr (λ a b, if Calendar.ltb a b then a else b) t l) in *.
    destruct (Calendar.ltb a m) eqn:Ham.
    + split; [right; by left |]. intros u Hu.
      destruct (decide (u = a)) as [-> | Hne]; [apply ltb_irrefl |].
      assert (u ∈ t :: l) as Hu'.
      { apply elem_of_cons in Hu as [-> | Hu]; [by left |].
        apply elem_of_cons in Hu as [-> | Hu]; [done | by right]. }
      apply Hmin in Hu'. apply not_true_iff_false. intros Hua.
      apply not_true_iff_false in Hu'. apply Hu'. by eapply ltb_trans.
    + split.
      * apply elem_of_cons in Hin as [-> | Hin]; [by left | right; by right].
      * intros u Hu. destruct (decide (u = a)) as [-> | Hne]; [done |].
        apply Hmin. apply elem_of_cons in Hu as [-> | Hu]; [by left |].
        apply elem_of_cons in Hu as [-> | Hu]; [done | by right].
Qed.

Lemma latest_spec (l : list Timestamp) :
  match load.latest l with
  | Stamp t => t ∈ l ∧ ∀ u, u ∈ l → Calendar.ltb t u = false
  | c => c = NA ∧ l = []
  end.
Proof.
  destruct l as [|t l]; [done |]. cbn [load.latest].
  induction l as [|a l IH]; cbn [foldr].
  - split; [by left |]. intros u Hu. apply list_elem_of_singleton in Hu as ->.
    apply ltb_irrefl.
  - destruct IH as [Hin Hmax].
    set (m := foldr (λ a b, if Calendar.ltb b a then a else b) t l) in *.
    destruct (Calendar.ltb m a) eqn:Hma.
    + split; [right; by left |]. intros u Hu.
      destruct (decide (u = a)) as [-> | Hne]; [apply ltb_irrefl |].
      assert (u ∈ t :: l) as Hu'.
      { apply elem_of_cons in Hu as [-> | Hu]; [by left |].
        apply elem_of_cons in Hu as [-> | Hu]; [done | by right]. }
      apply Hmax in Hu'. apply not_true_iff_false. intros Hau.
      apply not_true_iff_false in Hu'. apply Hu'. by eapply ltb_trans.
    + split.
      * apply elem_of_cons in Hin as [-> | Hin]; [by left | right; by right].
      * intros u Hu. destruct (decide (u = a)) as [-> | Hne]; [done |].
        apply Hmax. apply elem_of_cons in Hu as [-> | Hu]; [by left |].
        apply elem_of_cons in Hu as [-> | Hu]; [done | by right].
Qed.



(** X11. The key of a date sorts as the date does: between two calendar
    dates, the earlier one has the smaller [YYYYMMDD] key, and two dates
    with the same key are the same date. *)
Theorem date_key_chronological (t u : Timestamp)
    (Ht : Calendar.valid t) (Hu : Calendar.valid u) :
  (Calendar.ltb t u = true ↔ Calendar.date_key t < Calendar.date_key u)
  ∧ (Calendar.date_key t = Calendar.date_key u → t = u).
Proof.
  rewrite (date_key_valid t Ht), (date_key_valid u Hu), ltb_spec.
  apply valid_bounds in Ht as (Hy & Hm & Hd).
  apply valid_bounds in Hu as (Hy' & Hm' & Hd').
  destruct t as [y m d], u as [y' m' d']. cbn [year month day] in *.
  split; [lia |]. intros Heq. f_equal; lia.
Qed.

(** 2019-01-03 comes before 2019-02-01, and 20190103 before 20190201. *)
Lemma date_key_chronological_sample :
  (Calendar.ltb (mkTimestamp 2019 1 3) (mkTimestamp 2019 2 1) = true
   ↔ Calendar.date_key (mkTimestamp 2019 1 3) < Calendar.date_key (mkTimestamp 2019 2 1))
  ∧ (Calendar.date_key (mkTimestamp 2019 1 3) = Calendar.date_key (mkTimestamp 2019 2 1)
     → mkTimestamp 2019 1 3 = mkTimestamp 2019 2 1).
Proof.
  apply date_key_chronological; vm_compute; repeat split; discriminate.
Defined.

(** Whether a run returned. *)
Definition returned {S A} (o : Exc A * S * list LogRecord) : bool :=
  match result o with Ok _ => true | Raise _ => false end.

Lemma returned_run {S A} (o : Exc A * S * list LogRecord) :
  returned o = true → ∃ a, o = (Ok a, store o, logged o).
Proof.
  destruct o as [[[a | e] s] l]; unfold returned, result, store, logged; cbn.
  - intros _. by exists a.
  - discriminate.
Defined.


